(** * ATEMLogger: the monitoring and EDL core of [atemlogger7.py]

    A shallow embedding of the functions [generate_edl], [adjust_timecode],
    [get_timecode_from_hyperdeck] and of the polling loop of
    [ATEMMonitorThread.run], followed by the properties proved about them.

    Conventions of the embedding.
    - A Python [int] is a [Z] (both are unbounded).
    - A Python [str] or [bytes] value is a [string], i.e. a sequence of
      bytes.  For ASCII text, which is what the f-strings of the program
      produce and what the recording deck sends, byte-wise [split], [strip],
      [startswith], [in] and [int] coincide with Python's.  Outside ASCII,
      Python's [strip] and [int] know further blanks and digits; those are
      not part of the model, and neither is the optional limit on the number
      of digits [int] accepts.
    - A value that is either [None] or a [str] is an [option string].
    - A [try: ... except Exception] block is a computation in [result],
      followed by a [match] on its outcome. *)

From Stdlib Require Import ZArith Lia Ascii String List Bool.
From stdpp Require Import base option list strings gmap.
Import ListNotations.

Local Open Scope Z_scope.

(** ** Exceptions *)

Inductive exn : Set :=
  | ValueError | AttributeError | IndexError | TypeError
  | OSError | UnicodeDecodeError | NameError.

Inductive result (A : Type) : Type :=
  | Ok (a : A)
  | Raise (e : exn).
Arguments Ok {A} a.
Arguments Raise {A} e.

#[global] Instance result_ret : MRet result := fun _ a => Ok a.

#[global] Instance result_bind : MBind result := fun _ _ k m =>
  match m with
  | Ok a => k a
  | Raise e => Raise e
  end.

(** ** The string primitives of Python the program uses *)

Module Py.

Definition code (c : ascii) : Z := Z.of_N (N_of_ascii c).

Definition chr (n : Z) : ascii := ascii_of_N (Z.to_N n).

Definition NL : ascii := chr 10.

(** [str.isspace] on the ASCII range: the blanks [str.strip()] removes. *)
Definition isspace (c : ascii) : bool :=
  let n := code c in
  ((9 <=? n) && (n <=? 13)) || ((28 <=? n) && (n <=? 32)).

(** The blanks [int()] skips around a literal. *)
Definition isspace_int (c : ascii) : bool :=
  let n := code c in
  ((9 <=? n) && (n <=? 13)) || (n =? 32).

Definition isdigit (c : ascii) : bool :=
  let n := code c in (48 <=? n) && (n <=? 57).

Definition digit_value (c : ascii) : Z := code c - 48.

Definition digit_char (d : Z) : ascii := chr (48 + d).

Fixpoint lstrip_by (blank : ascii -> bool) (s : string) : string :=
  match s with
  | EmptyString => EmptyString
  | String c r => if blank c then lstrip_by blank r else s
  end.

Fixpoint rstrip_by (blank : ascii -> bool) (s : string) : string :=
  match s with
  | EmptyString => EmptyString
  | String c r =>
      match rstrip_by blank r with
      | EmptyString => if blank c then EmptyString else String c EmptyString
      | r' => String c r'
      end
  end.

(** [s.strip()] *)
Definition strip (s : string) : string :=
  rstrip_by isspace (lstrip_by isspace s).

(** [s.startswith(p)] *)
Definition startswith (s p : string) : bool := String.prefix p s.

(** [sub in s] *)
Fixpoint contains (sub s : string) : bool :=
  String.prefix sub s ||
  match s with
  | EmptyString => false
  | String _ r => contains sub r
  end.

(** [s.split(sep)] for a non-empty separator: the pieces between the
    occurrences of [sep], found from left to right without overlap.
    [skip] counts the characters of a matched separator still to pass. *)
Fixpoint split_from (sep : string) (skip : nat) (s : string) : list string :=
  match s with
  | EmptyString => [EmptyString]
  | String c r =>
      match skip with
      | S k => split_from sep k r
      | O =>
          if String.prefix sep s
          then EmptyString :: split_from sep (Nat.pred (String.length sep)) r
          else match split_from sep O r with
               | piece :: pieces => String c piece :: pieces
               | [] => [String c EmptyString]
               end
      end
  end.

Definition split (s sep : string) : list string := split_from sep O s.

(** The digits of a literal after its sign: decimal digits, with single
    underscores allowed between two digits. *)
Fixpoint int_digits (acc : Z) (after_digit : bool) (s : string) : option Z :=
  match s with
  | EmptyString => if after_digit then Some acc else None
  | String c r =>
      if isdigit c then int_digits (10 * acc + digit_value c) true r
      else if Ascii.eqb c "_"%char
           then (if after_digit then int_digits acc false r else None)
           else None
  end.

(** [int(s)] in base ten; [ValueError] when [s] is not a literal. *)
Definition int (s : string) : result Z :=
  let body := rstrip_by isspace_int (lstrip_by isspace_int s) in
  let parsed :=
    match body with
    | String c r =>
        if Ascii.eqb c "+"%char then int_digits 0 false r
        else if Ascii.eqb c "-"%char then Z.opp <$> int_digits 0 false r
        else int_digits 0 false body
    | EmptyString => None
    end in
  match parsed with
  | Some n => Ok n
  | None => Raise ValueError
  end.

(** The decimal digits of a non-negative integer, most significant
    first.  [fuel] bounds the number of digits. *)
Fixpoint digits_from (fuel : nat) (n : Z) (acc : string) : string :=
  match fuel with
  | O => acc
  | S k =>
      let acc' := String (digit_char (n mod 10)) acc in
      if n <? 10 then acc' else digits_from k (n / 10) acc'
  end.

Definition digits (n : Z) : string :=
  digits_from (S (Z.to_nat (Z.log2 n))) n EmptyString.

Fixpoint zeros (k : nat) (s : string) : string :=
  match k with
  | O => s
  | S k' => String "0"%char (zeros k' s)
  end.

Definition zfill (width : nat) (s : string) : string :=
  zeros (width - String.length s)%nat s.

(** [f"{n:0w}"] for an integer [n]: sign first, then zeros up to the
    width, then the digits. *)
Definition format_0 (width : nat) (n : Z) : string :=
  if n <? 0
  then String "-"%char (zfill (Nat.pred width) (digits (- n)))
  else zfill width (digits n).

(** [f"{v}"] for a value that is [None] or a [str]. *)
Definition str_of (v : option string) : string :=
  match v with
  | Some s => s
  | None => "None"
  end.

(** Truth value of a value that is [None] or a [str]. *)
Definition truthy (v : option string) : bool :=
  match v with
  | Some (String _ _) => true
  | _ => false
  end.

End Py.

(** ** Timecode arithmetic: [adjust_timecode] *)

(** The four integers of an [HH:MM:SS:FF] timecode. *)
Record fields : Set := Fields { hours : Z; minutes : Z; seconds : Z; frames : Z }.

(** [hours, minutes, seconds, frames = map(int, timecode.split(':'))]:
    [ValueError] unless the text has exactly four pieces, each an integer
    literal. *)
Definition unpack_fields (timecode : string) : result fields :=
  match Py.split timecode ":" with
  | [h; m; s; f] =>
      hours ← Py.int h;
      minutes ← Py.int m;
      seconds ← Py.int s;
      frames ← Py.int f;
      mret (Fields hours minutes seconds frames)
  | _ => Raise ValueError
  end.

(** Lines 47 to 62: add the compensation to the frames, then let each
    field overflow once into the next. *)
Definition add_frames (tc : fields) (compensation_frames : Z) : fields :=
  let frames := frames tc + compensation_frames in
  let seconds := seconds tc in
  let minutes := minutes tc in
  let hours := hours tc in
  let '(frames, seconds) :=
    if 25 <=? frames then (frames - 25, seconds + 1) else (frames, seconds) in
  let '(seconds, minutes) :=
    if 60 <=? seconds then (seconds - 60, minutes + 1) else (seconds, minutes) in
  let '(minutes, hours) :=
    if 60 <=? minutes then (minutes - 60, hours + 1) else (minutes, hours) in
  Fields hours minutes seconds frames.

(** [f"{hours:02}:{minutes:02}:{seconds:02}:{frames:02}"] *)
Definition format_fields (tc : fields) : string :=
  Py.format_0 2 (hours tc) +:+ ":" +:+ Py.format_0 2 (minutes tc) +:+ ":" +:+
  Py.format_0 2 (seconds tc) +:+ ":" +:+ Py.format_0 2 (frames tc).

(** The body of the [try] block of [adjust_timecode].  The argument is
    whatever a clip holds: [None] has no [split] method. *)
Definition adjust_timecode_try (timecode : option string)
    (compensation_frames : Z) : result string :=
  match timecode with
  | None => Raise AttributeError
  | Some text =>
      tc ← unpack_fields text;
      mret (format_fields (add_frames tc compensation_frames))
  end.

(** [adjust_timecode]: the result of the body, or the argument itself when
    the body raised. *)
Definition adjust_timecode (timecode : option string)
    (compensation_frames : Z) : option string :=
  match adjust_timecode_try timecode compensation_frames with
  | Ok adjusted => Some adjusted
  | Raise _ => timecode
  end.

(** What the logger receives. *)
Inductive level : Set := INFO | WARNING | ERROR.

Inductive log_record : Set :=
  | Log (l : level) (message : string)
  | LogExn (l : level) (message : string) (e : exn).

(** The record [adjust_timecode] logs in its [except] branch. *)
Definition adjust_timecode_log (timecode : option string)
    (compensation_frames : Z) : list log_record :=
  match adjust_timecode_try timecode compensation_frames with
  | Ok _ => []
  | Raise e => [LogExn ERROR "Error while adjusting the timecode: " e]
  end.

(** ** The deck client: [get_timecode_from_hyperdeck] *)

(** One call of [socket_conn.recv(1024)]: some bytes (none when the peer
    has closed), or an [OSError]. *)
Inductive recv_outcome : Set :=
  | Chunk (data : string)
  | RecvError.

(** What the connection does during one query: whether [sendall] raises,
    and what the successive calls of [recv] give.  After the last entry the
    stream is at its end and [recv] returns no bytes. *)
Record connection : Set := Connection {
  sendall_raises : bool;
  incoming : list recv_outcome
}.

(** The [while True] loop of lines 92 to 96. *)
Fixpoint recv_until_newline (incoming : list recv_outcome) (response : string)
    : result string :=
  match incoming with
  | [] => Ok response
  | RecvError :: _ => Raise OSError
  | Chunk chunk :: later =>
      let response := response +:+ chunk in
      if String.eqb chunk "" || Py.contains (String Py.NL "") chunk
      then Ok response
      else recv_until_newline later response
  end.

(** Well-formed UTF-8, byte by byte: [Some (k, lo, hi)] says that [k] more
    bytes of the current character are due and that the next one lies in
    [lo..hi]. *)
Definition utf8_step (st : option (nat * Z * Z)) (c : ascii)
    : option (option (nat * Z * Z)) :=
  let b := Py.code c in
  match st with
  | None =>
      if b <=? 127 then Some None
      else if (194 <=? b) && (b <=? 223) then Some (Some (1%nat, 128, 191))
      else if b =? 224 then Some (Some (2%nat, 160, 191))
      else if b =? 237 then Some (Some (2%nat, 128, 159))
      else if (225 <=? b) && (b <=? 239) then Some (Some (2%nat, 128, 191))
      else if b =? 240 then Some (Some (3%nat, 144, 191))
      else if (241 <=? b) && (b <=? 243) then Some (Some (3%nat, 128, 191))
      else if b =? 244 then Some (Some (3%nat, 128, 143))
      else None
  | Some (k, lo, hi) =>
      if (lo <=? b) && (b <=? hi)
      then match k with
           | S (S k') => Some (Some (S k', 128, 191))
           | _ => Some None
           end
      else None
  end.

Fixpoint utf8_check (st : option (nat * Z * Z)) (bytes : string) : bool :=
  match bytes with
  | EmptyString => match st with None => true | Some _ => false end
  | String c r =>
      match utf8_step st c with
      | Some st' => utf8_check st' r
      | None => false
      end
  end.

(** [response.decode("utf-8")] *)
Definition decode_utf8 (bytes : string) : result string :=
  if utf8_check None bytes then Ok bytes else Raise UnicodeDecodeError.

(** [pieces[1]] *)
Definition item1 (pieces : list string) : result string :=
  match pieces with
  | _ :: piece :: _ => Ok piece
  | _ => Raise IndexError
  end.

Definition display_timecode_key : string := "display timecode:".

(** The [for line in response_str.split("\n")] loop of lines 103 to 105:
    the value of the first line that starts with the key, if there is one. *)
Fixpoint scan_lines (lines : list string) : result (option string) :=
  match lines with
  | [] => Ok None
  | line :: later =>
      if Py.startswith line display_timecode_key
      then piece ← item1 (Py.split line display_timecode_key);
           mret (Some (Py.strip piece))
      else scan_lines later
  end.

(** The body of the [try] block, lines 88 to 114.  The [print] calls are
    left out; the value [status] they show is computed as the code does. *)
Definition get_timecode_try (socket_conn : connection) : result (option string) :=
  if sendall_raises socket_conn then Raise OSError
  else
    response ← recv_until_newline (incoming socket_conn) "";
    response_str ← decode_utf8 response;
    found ← scan_lines (Py.split response_str (String Py.NL ""));
    match found with
    | Some timecode => mret (Some timecode)
    | None =>
        if Py.contains "status:" response_str
        then piece ← item1 (Py.split response_str "status:");
             let status := Py.strip piece in
             mret None
        else mret None
    end.

(** [get_timecode_from_hyperdeck]: every exception of the body is caught
    and logged, and the function then returns [None]. *)
Definition get_timecode_from_hyperdeck (socket_conn : connection) : option string :=
  match get_timecode_try socket_conn with
  | Ok found => found
  | Raise _ => None
  end.

(** ** The outside world: files and the log *)

Record world : Type := World {
  files : gmap string string;
  journal : list log_record
}.

(** [open(file_path, 'w')], taken to succeed: the file exists and is empty
    afterwards. *)
Definition open_w (file_path : string) (w : world) : world :=
  World (<[file_path := ""]> (files w)) (journal w).

(** [edl_file.write(text)] on the file opened at [file_path]. *)
Definition write (file_path text : string) (w : world) : world :=
  World (alter (fun written => written +:+ text) file_path (files w)) (journal w).

Definition log_all (records : list log_record) (w : world) : world :=
  World (files w) (journal w ++ records).

(** ** EDL serialisation and the polling loop *)

Section Session.

(** The switcher's identifier of a program input: compared with [!=] and
    shown with [str]. *)
Context {Input : Type} `{EqDecision Input}.
Variable input_str : Input -> string.

(** Whether [update_log_signal.emit], declared with three [str]
    arguments, takes [None] for one of them or raises [TypeError].  The
    signal library decides that, not this program. *)
Variable emit_accepts_none : bool.

(** The dictionary [{'start': ..., 'end': ..., 'src': ...}]. *)
Record clip : Type := Clip {
  start : option string;
  end_ : option string;
  src : Input
}.

(** *** [generate_edl] *)

(** One turn of the [for] loop, lines 26 to 37, for the clip at index [i]. *)
Definition write_clip (file_path : string) (compensation_frames : Z)
    (i : nat) (c : clip) (w : world) : world :=
  let start_timecode := start c in
  let end_timecode := end_ c in
  let '(start_timecode, end_timecode, w) :=
    if 0 <? compensation_frames
    then (adjust_timecode start_timecode compensation_frames,
          adjust_timecode end_timecode compensation_frames,
          log_all (adjust_timecode_log start_timecode compensation_frames ++
                   adjust_timecode_log end_timecode compensation_frames) w)
    else (start_timecode, end_timecode, w) in
  let clip_id := Py.format_0 4 (Z.of_nat i + 1) in
  let w := write file_path
    (clip_id +:+ "  AX    V     C   " +:+
     Py.str_of start_timecode +:+ " " +:+ Py.str_of end_timecode +:+ " " +:+
     Py.str_of start_timecode +:+ " " +:+ Py.str_of end_timecode +:+
     String Py.NL "") w in
  write file_path
    ("* FROM CLIP NAME: " +:+ input_str (src c) +:+ String Py.NL "") w.

(** The [for i, clip in enumerate(clips)] loop.  The list object is part
    of the state: each turn reads the clip at the next index, until there
    is none. *)
Fixpoint for_clips (fuel i : nat) (file_path : string)
    (compensation_frames : Z) (st : list clip * world) : list clip * world :=
  match fuel with
  | O => st
  | S fuel' =>
      match st.1 !! i with
      | None => st
      | Some c =>
          for_clips fuel' (S i) file_path compensation_frames
            (st.1, write_clip file_path compensation_frames i c st.2)
      end
  end.

(** [generate_edl(clips, file_path, compensation_frames)]: the list
    object and the world after the call. *)
Definition generate_edl (clips : list clip) (file_path : string)
    (compensation_frames : Z) (w : world) : list clip * world :=
  match clips with
  | [] =>
      (clips, log_all [Log WARNING "No cuts detected, no data to save in the EDL."] w)
  | _ :: _ =>
      let w := open_w file_path w in
      let w := write file_path ("TITLE: ATEM Program Output" +:+ String Py.NL "") w in
      let w := write file_path ("FCM: NON-DROP FRAME" +:+ String Py.NL "") w in
      let st := for_clips (length clips) 0 file_path compensation_frames (clips, w) in
      (st.1, log_all [Log INFO ("EDL file successfully generated: " +:+ file_path)] st.2)
  end.

(** *** The loop of [ATEMMonitorThread.run] *)

Inductive signal : Type :=
  | update_input_signal (program_input_str : string)
  | update_log_signal (source first : string) (last : option string)
  | update_timecode_signal (timecode : string).

(** What one turn of the loop reads: the switcher's program input, or the
    exception the read raised, and the answer of
    [get_timecode_from_hyperdeck]. *)
Inductive switcher_read : Type :=
  | ReadRaises (e : exn)
  | ReadGives (program_input : option Input).

Record sample : Type := Sample {
  switcher : switcher_read;
  deck : option string
}.

(** A local variable that may not have been assigned yet. *)
Inductive local (A : Type) : Type :=
  | Unbound
  | Bound (v : A).
Arguments Unbound {A}.
Arguments Bound {A} v.

Record loop_state : Type := LoopState {
  last_program_input : option Input;
  last_timecode : option string;
  clips : list clip;
  timecode : local (option string)
}.

(** Lines 151 to 153. *)
Definition initial : loop_state := LoopState None None [] Unbound.

(** [str(program_input)] *)
Definition program_input_str (program_input : option Input) : string :=
  match program_input with
  | Some i => input_str i
  | None => "None"
  end.

Record turn : Type := Turn {
  after : loop_state;
  signals : list signal;
  records : list log_record
}.

(** One turn of the [while] loop, lines 157 to 181. *)
Definition tick (st : loop_state) (smp : sample) : turn :=
  match switcher smp with
  | ReadRaises e =>
      Turn st [] [LogExn ERROR "Error retrieving program input: " e]
  | ReadGives program_input =>
      let s_input := [update_input_signal (program_input_str program_input)] in
      let s_timecode :=
        match deck smp with
        | Some (String c r) => [update_timecode_signal (String c r)]
        | _ => []
        end in
      if decide (program_input = last_program_input st)
      then
        (* else branch: time.sleep(0.01) *)
        Turn (LoopState (last_program_input st) (last_timecode st) (clips st)
                (Bound (deck smp)))
             (s_input ++ s_timecode) []
      else
        let moved clips s_log :=
          Turn (LoopState program_input (deck smp) clips (Bound (deck smp)))
               (s_input ++ s_timecode ++ s_log)
               [Log INFO ("Program input at " +:+ Py.str_of (deck smp) +:+ ": " +:+
                          program_input_str program_input)] in
        match last_program_input st, last_timecode st with
        | Some source, Some (String c r) =>
            let first := String c r in
            let clips := clips st ++ [Clip (Some first) (deck smp) source] in
            match deck smp, emit_accepts_none with
            | None, false =>
                (* emit raises after the append: the rest of the turn is skipped *)
                Turn (LoopState (last_program_input st) (last_timecode st) clips
                        (Bound (deck smp)))
                     (s_input ++ s_timecode)
                     [LogExn ERROR "Error retrieving program input: " TypeError]
            | last, _ =>
                moved clips [update_log_signal (input_str source) first last]
            end
        | _, _ => moved (clips st) []
        end
  end.

(** The turns of the loop for the successive samples, up to the one after
    which the stop event is found set. *)
Fixpoint monitor (st : loop_state) (samples : list sample)
    : loop_state * list signal * list log_record :=
  match samples with
  | [] => (st, [], [])
  | smp :: later =>
      let t := tick st smp in
      let '(st', sigs, recs) := monitor (after t) later in
      (st', signals t ++ sigs, records t ++ recs)
  end.

(** Lines 183 to 188: the trailing clip. *)
Definition finish (st : loop_state) : result (list clip) :=
  match last_program_input st, last_timecode st with
  | Some source, Some (String c r) =>
      match timecode st with
      | Bound last => Ok (clips st ++ [Clip (Some (String c r)) last source])
      | Unbound => Raise NameError
      end
  | _, _ => Ok (clips st)
  end.

(** The clips of a session that went through the given samples. *)
Definition session_clips (samples : list sample) : result (list clip) :=
  finish (monitor initial samples).1.1.

(** Lines 151 to 191 of [run]: the loop, the trailing clip and the call of
    [generate_edl] when a destination is set and there is a clip. *)
Definition run (samples : list sample) (file_path : option string)
    (compensation_frames : Z) (w : world) : result (list clip * world) :=
  let '(st, _, recs) := monitor initial samples in
  let w := log_all recs w in
  clips ← finish st;
  match file_path, clips with
  | Some (String c r), _ :: _ =>
      mret (generate_edl clips (String c r) compensation_frames w)
  | _, _ => mret (clips, w)
  end.

End Session.

Arguments Unbound {A}.
Arguments Bound {A} v.
Arguments Clip {Input} start end_ src.
Arguments clip Input : clear implicits.

(** ** Connecting to the deck: [connect_to_hyperdeck] *)

(** What the network does for one call: whether creating the socket or
    [connect] raises, and what the first [recv] gives. *)
Record dial : Set := Dial {
  connect_raises : bool;
  greeting : recv_outcome
}.

(** The body of the [try] block, lines 73 to 78: the decoded greeting. *)
Definition connect_to_hyperdeck_try (d : dial) : result string :=
  if connect_raises d then Raise OSError
  else match greeting d with
       | RecvError => Raise OSError
       | Chunk data => decode_utf8 data
       end.

(** [connect_to_hyperdeck]: [true] for the socket, [false] for [None]. *)
Definition connect_to_hyperdeck (d : dial) : bool :=
  match connect_to_hyperdeck_try d with
  | Ok _ => true
  | Raise _ => false
  end.

Definition connect_to_hyperdeck_log (d : dial) : list log_record :=
  match connect_to_hyperdeck_try d with
  | Ok _ => []
  | Raise e => [LogExn ERROR "Error connecting to HyperDeck: " e]
  end.

(** ** [ATEMMonitorThread.run], from its first line to its last *)

(** The calls the thread makes on the two devices and on the stop event. *)
Inductive device_call : Set :=
  | atem_connect
  | atem_disconnect
  | hyperdeck_connect
  | hyperdeck_close
  | stop_event_set.

Section Thread.

Context {Input : Type} `{EqDecision Input}.
Variable input_str : Input -> string.
Variable emit_accepts_none : bool.

Record thread_end : Type := ThreadEnd {
  calls : list device_call;
  emitted : list signal;
  clips_end : list (clip Input);
  world_end : world;
  raised : option exn
}.

(** Lines 137 to 199.  [atem_connect_raises] is the exception of
    [atem.connect], if it raises; the loop, the trailing clip and the EDL
    are those of [run] above. *)
Definition thread_run (atem_connect_raises : option exn) (d : dial)
    (hyperdeck_ip : string) (samples : list sample)
    (file_path : option string) (compensation_frames : Z) (w : world)
    : thread_end :=
  match atem_connect_raises with
  | Some e =>
      ThreadEnd [atem_connect; stop_event_set] [] []
        (log_all [LogExn ERROR "Error connecting to ATEM: " e] w) None
  | None =>
      if connect_to_hyperdeck d
      then
        let '(st, sigs, recs) := monitor input_str emit_accepts_none initial samples in
        let finally := [atem_connect; hyperdeck_connect; atem_disconnect; hyperdeck_close] in
        match run input_str emit_accepts_none samples file_path compensation_frames w with
        | Ok (clips, w') => ThreadEnd finally sigs clips w' None
        | Raise e => ThreadEnd finally sigs (clips st) (log_all recs w) (Some e)
        end
      else
        ThreadEnd [atem_connect; hyperdeck_connect; stop_event_set] [] []
          (log_all (connect_to_hyperdeck_log d ++
                    [Log ERROR ("Unable to connect to HyperDeck " +:+ hyperdeck_ip +:+ ".")]) w)
          None
  end.

End Thread.

(** ** The window: the handlers of [ATEMGUI] that carry logic *)

(** [s.lower()] on the ASCII range. *)
Definition lower_char (c : ascii) : ascii :=
  let n := Py.code c in
  if (65 <=? n) && (n <=? 90) then Py.chr (n + 32) else c.

Fixpoint lower (s : string) : string :=
  match s with
  | EmptyString => EmptyString
  | String c r => String (lower_char c) (lower r)
  end.

(** Lines 309 to 313 of [connect_to_atem]: the names of the video sources
    offered in the list of inputs. *)
Fixpoint video_inputs (names : list string) : list string :=
  match names with
  | [] => []
  | video_source_name :: later =>
      if negb (Py.startswith video_source_name "__")
      then if Py.startswith (lower video_source_name) "input"
           then video_source_name :: video_inputs later
           else video_inputs later
      else video_inputs later
  end.

(** What [toggle_monitoring] hands to the thread it creates. *)
Record thread_args : Set := ThreadArgs {
  thread_file_path : option string;
  thread_compensation_frames : Z
}.

(** The part of the window the handlers read and write. *)
Record window : Set := Window {
  is_monitoring : bool;
  stop_event : bool;
  monitor_thread : option thread_args;
  start_button : string;
  timecode_frame_border : string;
  frames_input : string;
  frames_input_enabled : bool;
  compensation_checkbox : bool;
  edl_file_path : option string
}.

(** The window as [__init__] leaves it. *)
Definition new_window : window :=
  Window false false None "Start" "#4CAF50" "2" false false None.

(** [toggle_frames_input] *)
Definition toggle_frames_input (g : window) : window :=
  Window (is_monitoring g) (stop_event g) (monitor_thread g) (start_button g)
    (timecode_frame_border g) (frames_input g)
    (compensation_checkbox g) (compensation_checkbox g) (edl_file_path g).

(** [choose_save_location], given the path the dialog returns. *)
Definition choose_save_location (chosen : string) (g : window) : window :=
  match chosen with
  | EmptyString => g
  | String _ _ =>
      Window (is_monitoring g) (stop_event g) (monitor_thread g) (start_button g)
        (timecode_frame_border g) (frames_input g) (frames_input_enabled g)
        (compensation_checkbox g) (Some chosen)
  end.

(** [toggle_monitoring]: the window afterwards, and the exception, if the
    handler raised. *)
Definition toggle_monitoring (g : window) : window * option exn :=
  if is_monitoring g
  then
    (* self.stop_event.set() *)
    let g := Window true true (monitor_thread g) (start_button g)
               (timecode_frame_border g) (frames_input g) (frames_input_enabled g)
               (compensation_checkbox g) (edl_file_path g) in
    match monitor_thread g with
    | None => (g, Some AttributeError)
    | Some _ =>
        (Window false true (monitor_thread g) "Start" "#4CAF50" (frames_input g)
           (frames_input_enabled g) (compensation_checkbox g) (edl_file_path g),
         None)
    end
  else
    (* self.stop_event.clear() *)
    let g := Window false false (monitor_thread g) (start_button g)
               (timecode_frame_border g) (frames_input g) (frames_input_enabled g)
               (compensation_checkbox g) (edl_file_path g) in
    match (if compensation_checkbox g then Py.int (frames_input g) else Ok 0) with
    | Raise e => (g, Some e)
    | Ok compensation_frames =>
        (Window true false
           (Some (ThreadArgs (edl_file_path g) compensation_frames))
           "Stop" "red" (frames_input g) (frames_input_enabled g)
           (compensation_checkbox g) (edl_file_path g),
         None)
    end.

(** [closeEvent] *)
Definition closeEvent (g : window) : window * option exn :=
  if is_monitoring g
  then
    let g := Window true true (monitor_thread g) (start_button g)
               (timecode_frame_border g) (frames_input g) (frames_input_enabled g)
               (compensation_checkbox g) (edl_file_path g) in
    match monitor_thread g with
    | None => (g, Some AttributeError)
    | Some _ => (g, None)
    end
  else (g, None).

(** What can happen to the window: a click on the start button, a click on
    the compensation checkbox (the box changes state, then
    [toggle_frames_input] runs), text typed into the frames field (taken
    only while the field is enabled), a path chosen in the save dialog, and
    the running thread setting the stop event on its own. *)
Inductive gui_event : Set :=
  | click_start
  | click_checkbox
  | type_frames (text : string)
  | choose_file (chosen : string)
  | thread_sets_stop.

Definition handle (g : window) (ev : gui_event) : window * option exn :=
  match ev with
  | click_start => toggle_monitoring g
  | click_checkbox =>
      (toggle_frames_input
         (Window (is_monitoring g) (stop_event g) (monitor_thread g) (start_button g)
            (timecode_frame_border g) (frames_input g) (frames_input_enabled g)
            (negb (compensation_checkbox g)) (edl_file_path g)),
       None)
  | type_frames text =>
      (if frames_input_enabled g
       then Window (is_monitoring g) (stop_event g) (monitor_thread g) (start_button g)
              (timecode_frame_border g) text (frames_input_enabled g)
              (compensation_checkbox g) (edl_file_path g)
       else g,
       None)
  | choose_file chosen => (choose_save_location chosen g, None)
  | thread_sets_stop =>
      (Window (is_monitoring g) true (monitor_thread g) (start_button g)
         (timecode_frame_border g) (frames_input g) (frames_input_enabled g)
         (compensation_checkbox g) (edl_file_path g),
       None)
  end.

(** The window after a run of events, and the exceptions raised on the
    way. *)
Fixpoint play (g : window) (events : list gui_event) : window * list exn :=
  match events with
  | [] => (g, [])
  | ev :: later =>
      let '(g', e) := handle g ev in
      let '(g'', es) := play g' later in
      (g'', match e with Some x => x :: es | None => es end)
  end.

(** * Vocabulary of the specification *)

(** Every character of [s] satisfies [p]. *)
Fixpoint all_chars (p : ascii -> bool) (s : string) : bool :=
  match s with
  | EmptyString => true
  | String c r => p c && all_chars p r
  end.

(** The value of a run of digits read after the value [acc]. *)
Fixpoint digits_value (acc : Z) (s : string) : Z :=
  match s with
  | EmptyString => acc
  | String c r => digits_value (10 * acc + Py.digit_value c) r
  end.

(** A text line: the text and a newline. *)
Definition line (text : string) : string := text +:+ String Py.NL "".

(** The invariant of a timecode at a frame rate: frames below the rate,
    seconds and minutes below sixty, nothing negative. *)
Definition valid_timecode (frame_rate : Z) (tc : fields) : Prop :=
  0 <= hours tc /\ 0 <= minutes tc < 60 /\ 0 <= seconds tc < 60 /\
  0 <= frames tc < frame_rate.

(** The carry rule in the words of the specification: add the delta to the
    frames, carry what exceeds the frame rate into the seconds, what exceeds
    sixty seconds into the minutes and what exceeds sixty minutes into the
    hours. *)
Definition carry_rule (frame_rate : Z) (tc : fields) (frame_delta : Z) : fields :=
  let total_frames := frames tc + frame_delta in
  let total_seconds := seconds tc + total_frames / frame_rate in
  let total_minutes := minutes tc + total_seconds / 60 in
  Fields (hours tc + total_minutes / 60) (total_minutes mod 60)
         (total_seconds mod 60) (total_frames mod frame_rate).

(** [adjust_timecode], applied to the text of [tc], gives the text of what
    the carry rule gives at [frame_rate]. *)
Definition adjust_carries_at (frame_rate : Z) (tc : fields) (frame_delta : Z) : Prop :=
  adjust_timecode (Some (format_fields tc)) frame_delta =
  Some (format_fields (carry_rule frame_rate tc frame_delta)).

(** The part of [s] before the first occurrence of [key]; all of [s] when
    [key] does not occur. *)
Fixpoint before_key (key s : string) : string :=
  match s with
  | EmptyString => EmptyString
  | String c r => if String.prefix key s then EmptyString else String c (before_key key r)
  end.

(** A chunk after which the deck client goes on reading: some bytes, and no
    newline among them. *)
Definition quiet (chunk : string) : bool :=
  negb (String.eqb chunk "") && negb (Py.contains (String Py.NL "") chunk).

(** [receives incoming response]: reading ends without error, and
    [response] is what has been read by then: the chunks up to and including
    the first that is empty or holds a newline, or all of them when the
    stream ends before. *)
Inductive receives : list recv_outcome -> string -> Prop :=
  | receives_end : receives [] ""
  | receives_last chunk later :
      quiet chunk = false -> receives (Chunk chunk :: later) chunk
  | receives_more chunk later response :
      quiet chunk = true -> receives later response ->
      receives (Chunk chunk :: later) (chunk +:+ response).

(** [recv_fails incoming]: a call of [recv] raises before reading ends. *)
Inductive recv_fails : list recv_outcome -> Prop :=
  | recv_fails_now later : recv_fails (RecvError :: later)
  | recv_fails_later chunk later :
      quiet chunk = true -> recv_fails later -> recv_fails (Chunk chunk :: later).

(** No line of the list starts with the key of the display timecode. *)
Definition no_timecode_line (lines : list string) : Prop :=
  Forall (fun l => Py.startswith l display_timecode_key = false) lines.

(** Some answers of a deck, for the examples. *)
Definition crlf : string := String (Py.chr 13) (String Py.NL "").

Definition recording_answer : string :=
  "208 transport info:" +:+ crlf +:+ "status: record" +:+ crlf +:+
  "display timecode: 00:00:01:00" +:+ crlf +:+ crlf.

Definition deck_recording : connection :=
  Connection false [Chunk recording_answer].

Definition deck_stopped : connection :=
  Connection false
    [Chunk "208 transport "; Chunk ("info:" +:+ crlf +:+ "status: stopped" +:+ crlf)].

Definition deck_broken : connection :=
  Connection false [Chunk "208 "; RecvError].

(** The text of an EDL, as the interface section of the specification
    lays it out. *)
Section EdlText.

Context {Input : Type}.
Variable input_str : Input -> string.

(** Record number [i + 1]: the record line, with the pair of timecodes
    twice, and the line that names the source. *)
Definition edl_record (i : nat) (c : clip Input) : string :=
  line (Py.format_0 4 (Z.of_nat i + 1) +:+ "  AX    V     C   " +:+
        Py.str_of (start c) +:+ " " +:+ Py.str_of (end_ c) +:+ " " +:+
        Py.str_of (start c) +:+ " " +:+ Py.str_of (end_ c)) +:+
  line ("* FROM CLIP NAME: " +:+ input_str (src c)).

(** The records of the clips, in their order, numbered from [i + 1]. *)
Fixpoint edl_records (i : nat) (clips : list (clip Input)) : string :=
  match clips with
  | [] => ""
  | c :: later => edl_record i c +:+ edl_records (S i) later
  end.

Definition edl_text (clips : list (clip Input)) : string :=
  line "TITLE: ATEM Program Output" +:+ line "FCM: NON-DROP FRAME" +:+
  edl_records 0 clips.

(** A clip with both timecodes passed through [adjust_timecode]. *)
Definition shift_clip (compensation_frames : Z) (c : clip Input) : clip Input :=
  Clip (adjust_timecode (start c) compensation_frames)
       (adjust_timecode (end_ c) compensation_frames) (src c).

(** What one turn of the loop of [generate_edl] shows of a clip. *)
Definition seen_clip (compensation_frames : Z) (c : clip Input) : clip Input :=
  if 0 <? compensation_frames then shift_clip compensation_frames c else c.


End EdlText.

(** Three program inputs, for the examples. *)
Inductive cam : Set := A | B | C.

#[global] Instance cam_eq_dec : EqDecision cam.
Proof. solve_decision. Defined.

Definition cam_str (i : cam) : string :=
  match i with
  | A => "A"
  | B => "B"
  | C => "C"
  end.

(** The sample [(i, tc)]: both devices answered. *)
Definition seen {Input : Type} (i : Input) (tc : string) : sample :=
  Sample (ReadGives (Some i)) (Some tc).

(** A sample that cannot be an edge after the input [held]: the switcher
    still shows [held], or reading it raised. *)
Definition holds_input {Input : Type} (held : option Input) (smp : @sample Input) : Prop :=
  switcher smp = ReadGives held \/ exists e, switcher smp = ReadRaises e.

(** The number of frames a timecode stands for at 25 frames per second. *)
Definition frame_count (tc : fields) : Z :=
  ((hours tc * 60 + minutes tc) * 60 + seconds tc) * 25 + frames tc.

(** A sample in which both devices answered: an input, and a non-empty
    timecode. *)
Definition answered {Input : Type} (smp : @sample Input) : bool :=
  match switcher smp, deck smp with
  | ReadGives (Some _), Some (String _ _) => true
  | _, _ => false
  end.

(** Each clip ends where the next one starts, and the next one has another
    source. *)
Definition chained {Input : Type} (l : list (clip Input)) : Prop :=
  forall i c1 c2,
    l !! i = Some c1 -> l !! S i = Some c2 ->
    end_ c1 = start c2 /\ src c1 <> src c2.

Definition is_log_signal (s : signal) : bool :=
  match s with
  | update_log_signal _ _ _ => true
  | _ => false
  end.

(** The signal that announces a clip. *)
Definition log_signal_of {Input : Type} (input_str : Input -> string)
    (c : clip Input) : signal :=
  update_log_signal (input_str (src c)) (Py.str_of (start c)) (end_ c).

(** A clip the signal library lets the loop announce: any clip if it takes
    [None] for an argument, a clip with an end otherwise. *)
Definition announced {Input : Type} (emit_accepts_none : bool)
    (c : clip Input) : bool :=
  emit_accepts_none || match end_ c with Some _ => true | None => false end.

(** The window shows what it does: the button reads Stop and the border is
    red exactly while monitoring, and a thread exists while monitoring. *)
Definition coherent (g : window) : Prop :=
  (is_monitoring g = true ->
   start_button g = "Stop" /\ timecode_frame_border g = "red" /\
   exists args, monitor_thread g = Some args) /\
  (is_monitoring g = false ->
   start_button g = "Start" /\ timecode_frame_border g = "#4CAF50") /\
  frames_input_enabled g = compensation_checkbox g.

Definition not_newline (c : ascii) : bool := negb (Ascii.eqb c Py.NL).

(** Once an input has been taken up, the variable [timecode] is bound. *)
Definition armed {Input : Type} (st : @loop_state Input) : Prop :=
  forall source, last_program_input st = Some source ->
  exists v, timecode st = Bound v.

(** The state of the loop while both devices answer: the clips are chained,
    the last of them ends where the pending interval starts and has another
    source, there is no clip before an input is taken up, and what is
    pending has a timecode. *)
Definition well_tracked {Input : Type} (st : @loop_state Input) : Prop :=
  chained (clips st) /\
  (forall c, last (clips st) = Some c ->
     end_ c = last_timecode st /\ Some (src c) <> last_program_input st) /\
  (last_program_input st = None -> clips st = []) /\
  (forall source, last_program_input st = Some source ->
     Py.truthy (last_timecode st) = true).

(** * Properties *)

(** ** Facts about the string primitives *)

#[local] Arguments String.append !_ _ / : simpl nomatch.

Section PyFacts.

Lemma all_chars_app p s t :
  all_chars p (s +:+ t) = all_chars p s && all_chars p t.
Proof.
  induction s as [|c s IH]; simpl; [reflexivity|].
  rewrite IH. apply andb_assoc.
Qed.

Lemma all_chars_weaken (p q : ascii -> bool) s :
  (forall c, p c = true -> q c = true) ->
  all_chars p s = true -> all_chars q s = true.
Proof.
  intros Hpq. induction s as [|c s IH]; simpl; [reflexivity|].
  intros [Hc Hs]%andb_prop. rewrite (Hpq _ Hc), (IH Hs). reflexivity.
Qed.

Lemma digit_char_cases d :
  0 <= d < 10 ->
  d = 0 \/ d = 1 \/ d = 2 \/ d = 3 \/ d = 4 \/
  d = 5 \/ d = 6 \/ d = 7 \/ d = 8 \/ d = 9.
Proof. lia. Qed.

Ltac each_digit d H :=
  destruct (digit_char_cases d H) as
    [->|[->|[->|[->|[->|[->|[->|[->|[->| ->]]]]]]]]]; reflexivity.

Lemma isdigit_digit_char d : 0 <= d < 10 -> Py.isdigit (Py.digit_char d) = true.
Proof. intros H. each_digit d H. Qed.

Lemma digit_value_digit_char d :
  0 <= d < 10 -> Py.digit_value (Py.digit_char d) = d.
Proof. intros H. each_digit d H. Qed.

Lemma int_digits_all_digits s : forall acc b,
  all_chars Py.isdigit s = true ->
  (s <> EmptyString \/ b = true) ->
  Py.int_digits acc b s = Some (digits_value acc s).
Proof.
  induction s as [|c s IH]; simpl; intros acc b Hall Hne.
  - destruct Hne as [Hne| ->]; [congruence | reflexivity].
  - apply andb_prop in Hall as [Hc Hs]. rewrite Hc.
    apply IH; [assumption | right; reflexivity].
Qed.

Lemma all_digits_digits_from fuel : forall n acc,
  0 <= n -> all_chars Py.isdigit acc = true ->
  all_chars Py.isdigit (Py.digits_from fuel n acc) = true.
Proof.
  induction fuel as [|k IH]; simpl; intros n acc Hn Hacc; [assumption|].
  assert (Hd : Py.isdigit (Py.digit_char (n mod 10)) = true).
  { apply isdigit_digit_char. apply Z.mod_pos_bound. lia. }
  destruct (n <? 10).
  - simpl. rewrite Hd, Hacc. reflexivity.
  - apply IH; [apply Z.div_pos; lia | simpl; rewrite Hd, Hacc; reflexivity].
Qed.

Lemma digits_value_digits_from fuel : forall n acc,
  0 <= n < 10 ^ Z.of_nat fuel ->
  digits_value 0 (Py.digits_from fuel n acc) = digits_value n acc.
Proof.
  induction fuel as [|k IH]; intros n acc Hn.
  - simpl in *. f_equal. lia.
  - cbn [Py.digits_from].
    assert (Hm : 0 <= n mod 10 < 10) by (apply Z.mod_pos_bound; lia).
    destruct (Z.ltb_spec n 10) as [Hlt|Hge].
    + cbn [digits_value]. rewrite digit_value_digit_char by assumption.
      f_equal. rewrite Z.mod_small by lia. lia.
    + rewrite IH.
      * cbn [digits_value]. rewrite digit_value_digit_char by assumption.
        f_equal. pose proof (Z.div_mod n 10). lia.
      * split; [apply Z.div_pos; lia|].
        apply Z.div_lt_upper_bound; [lia|].
        rewrite Nat2Z.inj_succ, Z.pow_succ_r in Hn by lia. lia.
Qed.

Lemma digits_from_nonempty fuel n acc :
  Py.digits_from (S fuel) n acc <> EmptyString.
Proof.
  revert n acc. induction fuel as [|k IH]; intros n acc; simpl.
  - destruct (n <? 10); discriminate.
  - destruct (n <? 10); [discriminate|]. apply (IH (n / 10)).
Qed.

Lemma lt_pow10_log2 n : 0 <= n -> n < 10 ^ Z.of_nat (S (Z.to_nat (Z.log2 n))).
Proof.
  intros Hn. rewrite Nat2Z.inj_succ, Z2Nat.id by apply Z.log2_nonneg.
  destruct (Z.eq_dec n 0) as [->|Hnz]; [reflexivity|].
  pose proof (Z.log2_spec n ltac:(lia)) as [_ Hup].
  eapply Z.lt_le_trans; [exact Hup|].
  apply Z.pow_le_mono_l. pose proof (Z.log2_nonneg n). lia.
Qed.

Lemma digits_all_digits n : 0 <= n -> all_chars Py.isdigit (Py.digits n) = true.
Proof. intros Hn. apply all_digits_digits_from; [assumption | reflexivity]. Qed.

Lemma digits_value_digits n : 0 <= n -> digits_value 0 (Py.digits n) = n.
Proof.
  intros Hn. unfold Py.digits. rewrite digits_value_digits_from; [reflexivity|].
  split; [assumption | apply lt_pow10_log2; assumption].
Qed.

Lemma digits_nonempty n : Py.digits n <> EmptyString.
Proof. apply digits_from_nonempty. Qed.

Lemma zeros_all_digits k s :
  all_chars Py.isdigit (Py.zeros k s) = all_chars Py.isdigit s.
Proof. induction k as [|k IH]; simpl; [reflexivity | exact IH]. Qed.

Lemma zeros_value k s : digits_value 0 (Py.zeros k s) = digits_value 0 s.
Proof. induction k as [|k IH]; simpl; [reflexivity | exact IH]. Qed.

Lemma zeros_nonempty k s : s <> EmptyString -> Py.zeros k s <> EmptyString.
Proof. destruct k; simpl; [trivial | discriminate]. Qed.

Lemma prefix_empty s : String.prefix "" s = true.
Proof. destruct s; reflexivity. Qed.

Lemma rstrip_by_fixed blank s :
  all_chars (fun c => negb (blank c)) s = true -> Py.rstrip_by blank s = s.
Proof.
  induction s as [|c s IH]; simpl; [reflexivity|].
  intros [Hc Hs]%andb_prop. rewrite (IH Hs).
  apply negb_true_iff in Hc. rewrite Hc. destruct s; reflexivity.
Qed.

(** A digit is no blank, no sign, no underscore and no colon. *)
Lemma isdigit_plain c :
  Py.isdigit c = true ->
  Py.isspace_int c = false /\ Ascii.eqb c "+" = false /\
  Ascii.eqb c "-" = false /\ Ascii.eqb c ":" = false.
Proof.
  unfold Py.isdigit, Py.isspace_int. intros H.
  apply andb_prop in H as [Hlo Hhi]. apply Z.leb_le in Hlo, Hhi.
  repeat split.
  - apply orb_false_iff. split.
    + apply andb_false_iff. right. apply Z.leb_gt. lia.
    + apply Z.eqb_neq. lia.
  - apply Ascii.eqb_neq. intros ->. vm_compute in Hlo. now apply Hlo.
  - apply Ascii.eqb_neq. intros ->. vm_compute in Hlo. now apply Hlo.
  - apply Ascii.eqb_neq. intros ->. vm_compute in Hhi. now apply Hhi.
Qed.

(** [int] reads a non-empty run of digits as its value. *)
Lemma int_of_digits s :
  all_chars Py.isdigit s = true -> s <> EmptyString ->
  Py.int s = Ok (digits_value 0 s).
Proof.
  intros Hall Hne. unfold Py.int.
  destruct s as [|c r]; [congruence|].
  pose proof Hall as Hall'. simpl in Hall'. apply andb_prop in Hall' as [Hc _].
  destruct (isdigit_plain c Hc) as (Hsp & Hplus & Hminus & _).
  cbn [Py.lstrip_by]. rewrite Hsp.
  rewrite rstrip_by_fixed.
  - rewrite Hplus, Hminus.
    rewrite (int_digits_all_digits _ 0 false Hall) by (left; discriminate).
    reflexivity.
  - eapply all_chars_weaken; [|exact Hall].
    intros c' Hc'. destruct (isdigit_plain c' Hc') as (-> & _). reflexivity.
Qed.

(** Reading back a formatted integer gives the integer. *)
Lemma int_format_0 width n : Py.int (Py.format_0 width n) = Ok n.
Proof.
  unfold Py.format_0. destruct (Z.ltb_spec n 0) as [Hneg|Hpos].
  - unfold Py.int. cbn [Py.lstrip_by]. change (Py.isspace_int "-") with false.
    cbv iota.
    assert (Hd : all_chars Py.isdigit
                   (Py.zfill (Nat.pred width) (Py.digits (- n))) = true).
    { unfold Py.zfill. rewrite zeros_all_digits. apply digits_all_digits. lia. }
    rewrite rstrip_by_fixed.
    + change (Ascii.eqb "-" "+") with false. change (Ascii.eqb "-" "-") with true.
      cbv iota.
      rewrite (int_digits_all_digits _ 0 false Hd).
      * unfold Py.zfill. rewrite zeros_value, digits_value_digits by lia.
        simpl. f_equal. lia.
      * left. apply zeros_nonempty, digits_nonempty.
    + cbn [all_chars]. change (negb (Py.isspace_int "-")) with true.
      eapply all_chars_weaken; [|exact Hd].
      intros c Hc. destruct (isdigit_plain c Hc) as (-> & _). reflexivity.
  - rewrite int_of_digits.
    + unfold Py.zfill. rewrite zeros_value, digits_value_digits by lia. reflexivity.
    + unfold Py.zfill. rewrite zeros_all_digits. apply digits_all_digits. lia.
    + apply zeros_nonempty, digits_nonempty.
Qed.

Definition not_colon (c : ascii) : bool := negb (Ascii.eqb c ":").

Lemma format_0_no_colon width n : all_chars not_colon (Py.format_0 width n) = true.
Proof.
  assert (Hw : forall k m, 0 <= m ->
            all_chars not_colon (Py.zfill k (Py.digits m)) = true).
  { intros k m Hm. eapply all_chars_weaken.
    - intros c Hc. destruct (isdigit_plain c Hc) as (_ & _ & _ & Hcol).
      unfold not_colon. rewrite Hcol. reflexivity.
    - unfold Py.zfill. rewrite zeros_all_digits. apply digits_all_digits, Hm. }
  unfold Py.format_0. destruct (Z.ltb_spec n 0).
  - cbn [all_chars]. rewrite Hw by lia. reflexivity.
  - apply Hw. assumption.
Qed.

(** Splitting at colons: a piece without colon comes out whole. *)
Lemma split_colon_last a :
  all_chars not_colon a = true -> Py.split a ":" = [a].
Proof.
  unfold Py.split. induction a as [|c a IH]; [reflexivity|].
  cbn [all_chars]. intros [Hc Ha]%andb_prop.
  apply negb_true_iff, Ascii.eqb_neq in Hc.
  cbn [Py.split_from String.prefix].
  destruct (ascii_dec ":" c) as [E|_]; [congruence|].
  rewrite (IH Ha). reflexivity.
Qed.

Lemma split_colon_cons a rest :
  all_chars not_colon a = true ->
  Py.split (a +:+ String ":" rest) ":" = a :: Py.split rest ":".
Proof.
  unfold Py.split. induction a as [|c a IH].
  - intros _. cbn [String.append Py.split_from String.prefix].
    destruct (ascii_dec ":" ":") as [_|N]; [|congruence].
    rewrite prefix_empty. reflexivity.
  - cbn [all_chars]. intros [Hc Ha]%andb_prop.
    apply negb_true_iff, Ascii.eqb_neq in Hc.
    cbn [String.append Py.split_from String.prefix].
    destruct (ascii_dec ":" c) as [E|_]; [congruence|].
    rewrite (IH Ha). reflexivity.
Qed.

End PyFacts.

(** ** Timecode arithmetic *)

Section TimecodeFacts.

(** Parsing the text of four fields gives the four fields back. *)
Lemma unpack_format_fields tc : unpack_fields (format_fields tc) = Ok tc.
Proof.
  unfold unpack_fields, format_fields.
  assert (Hsep : forall x, ":" +:+ x = String ":" x) by reflexivity.
  rewrite !Hsep.
  rewrite !split_colon_cons by apply format_0_no_colon.
  rewrite split_colon_last by apply format_0_no_colon.
  rewrite !int_format_0. destruct tc; reflexivity.
Qed.

Lemma adjust_timecode_format tc d :
  adjust_timecode (Some (format_fields tc)) d = Some (format_fields (add_frames tc d)).
Proof.
  unfold adjust_timecode, adjust_timecode_try.
  rewrite unpack_format_fields. reflexivity.
Qed.

(** With room for one carry, the code's arithmetic is the carry rule at
    twenty-five frames per second. *)
Lemma add_frames_carry_rule tc d :
  valid_timecode 25 tc -> 0 <= d -> frames tc + d < 50 ->
  add_frames tc d = carry_rule 25 tc d.
Proof.
  destruct tc as [h m s f]. unfold valid_timecode, add_frames, carry_rule.
  cbn [hours minutes seconds frames]. intros (Hh & Hm & Hs & Hf) Hd Hroom.
  destruct (Z.leb_spec 25 (f + d)) as [Hc|Hc].
  - replace ((f + d) / 25) with 1 by (Z.div_mod_to_equations; lia).
    replace ((f + d) mod 25) with (f + d - 25) by (Z.div_mod_to_equations; lia).
    destruct (Z.leb_spec 60 (s + 1)) as [Hc2|Hc2].
    + replace ((s + 1) / 60) with 1 by (Z.div_mod_to_equations; lia).
      replace ((s + 1) mod 60) with (s + 1 - 60) by (Z.div_mod_to_equations; lia).
      destruct (Z.leb_spec 60 (m + 1)) as [Hc3|Hc3]; f_equal;
        Z.div_mod_to_equations; lia.
    + replace ((s + 1) / 60) with 0 by (Z.div_mod_to_equations; lia).
      replace ((s + 1) mod 60) with (s + 1) by (Z.div_mod_to_equations; lia).
      destruct (Z.leb_spec 60 m) as [Hc3|Hc3]; f_equal;
        Z.div_mod_to_equations; lia.
  - replace ((f + d) / 25) with 0 by (Z.div_mod_to_equations; lia).
    replace ((f + d) mod 25) with (f + d) by (Z.div_mod_to_equations; lia).
    destruct (Z.leb_spec 60 s) as [Hc2|Hc2]; [lia|].
    replace ((s + 0) / 60) with 0 by (Z.div_mod_to_equations; lia).
    replace ((s + 0) mod 60) with s by (Z.div_mod_to_equations; lia).
    destruct (Z.leb_spec 60 m) as [Hc3|Hc3]; [lia|]. f_equal;
      Z.div_mod_to_equations; lia.
Qed.

(** C1, as amended.  [adjust_timecode] has no frame-rate argument: the rate
    is the constant 25.  For every timecode that is valid at 25 frames per
    second and every non-negative delta that leaves room for one carry
    (frames + delta < 50, so every delta up to 25), it adds the delta to the
    frames and carries into seconds, minutes and hours as the carry rule
    says, with 25 as the modulus of the frames and 60 as that of seconds and
    minutes; and the three carries of the specification come out as
    written. *)
Theorem adjust_timecode_carries tc d :
  valid_timecode 25 tc -> 0 <= d -> frames tc + d < 50 ->
  adjust_carries_at 25 tc d /\
  adjust_timecode (Some "00:00:00:24") 1 = Some "00:00:01:00" /\
  adjust_timecode (Some "00:00:59:24") 1 = Some "00:01:00:00" /\
  adjust_timecode (Some "00:59:59:24") 1 = Some "01:00:00:00".
Proof.
  intros Hv Hd Hroom. split; [|repeat split; reflexivity].
  unfold adjust_carries_at. rewrite adjust_timecode_format.
  rewrite add_frames_carry_rule by assumption. reflexivity.
Qed.

Lemma adjust_timecode_carries_witness :
  adjust_carries_at 25 (Fields 1 59 59 20) 25.
Proof.
  apply (adjust_timecode_carries (Fields 1 59 59 20) 25).
  - unfold valid_timecode; simpl; lia.
  - lia.
  - simpl; lia.
Defined.

(** C1, as stated, fails.  At 25 frames per second, 26 frames added to
    frame 24 need two carries and get one: the code answers 00:00:01:25
    where the rule gives 00:00:02:00.  And a timecode that is valid at 30
    frames per second, 00:00:00:29, is carried at 25 although nothing is
    added to it. *)
Lemma adjust_timecode_misses_carry_rule :
  (valid_timecode 25 (Fields 0 0 0 24) /\ 0 <= 26 /\
   adjust_timecode (Some (format_fields (Fields 0 0 0 24))) 26 = Some "00:00:01:25" /\
   format_fields (carry_rule 25 (Fields 0 0 0 24) 26) = "00:00:02:00" /\
   ~ adjust_carries_at 25 (Fields 0 0 0 24) 26) /\
  (valid_timecode 30 (Fields 0 0 0 29) /\ 0 <= 0 /\
   adjust_timecode (Some (format_fields (Fields 0 0 0 29))) 0 = Some "00:00:01:04" /\
   format_fields (carry_rule 30 (Fields 0 0 0 29) 0) = "00:00:00:29" /\
   ~ adjust_carries_at 30 (Fields 0 0 0 29) 0).
Proof.
  split; (split; [unfold valid_timecode; simpl; lia|]);
    (split; [lia|]); (split; [reflexivity|]); (split; [reflexivity|]);
    unfold adjust_carries_at; vm_compute; discriminate.
Qed.

(** C6.  For every timecode [tc] valid at a frame rate and every delta from
    0 up to 9999, what [adjust_timecode] returns for the text of [tc] is the
    text of the adjusted fields, and parsing that text gives the adjusted
    fields again. *)
Theorem adjust_timecode_round_trip frame_rate tc d :
  valid_timecode frame_rate tc -> 0 <= d < 10000 ->
  adjust_timecode (Some (format_fields tc)) d =
    Some (format_fields (add_frames tc d)) /\
  unpack_fields (format_fields (add_frames tc d)) = Ok (add_frames tc d).
Proof.
  intros _ _. split; [apply adjust_timecode_format | apply unpack_format_fields].
Qed.

Lemma adjust_timecode_round_trip_witness :
  adjust_timecode (Some (format_fields (Fields 100 59 59 29))) 9999 =
    Some (format_fields (add_frames (Fields 100 59 59 29) 9999)) /\
  unpack_fields (format_fields (add_frames (Fields 100 59 59 29) 9999)) =
    Ok (add_frames (Fields 100 59 59 29) 9999).
Proof.
  apply (adjust_timecode_round_trip 30 (Fields 100 59 59 29) 9999).
  - unfold valid_timecode; simpl; lia.
  - lia.
Defined.

(** When the text is not four colon-separated integers, the [try] block
    raises. *)
Lemma unpack_fields_raises text :
  (forall h m s f, Py.int <$> Py.split text ":" <> [Ok h; Ok m; Ok s; Ok f]) ->
  unpack_fields text = Raise ValueError.
Proof.
  unfold unpack_fields. intros Hno.
  destruct (Py.split text ":") as [|h [|m [|s [|f [|x l]]]]]; try reflexivity.
  cbn in Hno.
  destruct (Py.int h) as [vh|[]] eqn:Eh, (Py.int m) as [vm|[]] eqn:Em,
           (Py.int s) as [vs|[]] eqn:Es, (Py.int f) as [vf|[]] eqn:Ef;
    try reflexivity; try (exfalso; apply (Hno vh vm vs vf); reflexivity);
    exfalso; revert Eh Em Es Ef; clear; unfold Py.int;
    repeat match goal with |- context [match ?x with _ => _ end] => destruct x end;
    congruence.
Qed.

(** C7.  Whatever the argument and the compensation, when the body of
    [adjust_timecode] raises, the function returns its argument as it was;
    and the body does raise when the text is not four colon-separated
    integers. *)
Theorem adjust_timecode_falls_back timecode d :
  (forall e, adjust_timecode_try timecode d = Raise e ->
             adjust_timecode timecode d = timecode) /\
  (forall text, timecode = Some text ->
     (forall h m s f, Py.int <$> Py.split text ":" <> [Ok h; Ok m; Ok s; Ok f]) ->
     adjust_timecode_try timecode d = Raise ValueError /\
     adjust_timecode timecode d = Some text).
Proof.
  split.
  - intros e He. unfold adjust_timecode. rewrite He. reflexivity.
  - intros text -> Hno. unfold adjust_timecode, adjust_timecode_try.
    rewrite (unpack_fields_raises _ Hno). split; reflexivity.
Qed.

Lemma adjust_timecode_falls_back_witness :
  adjust_timecode (Some "00:00:xx") 2 = Some "00:00:xx" /\
  adjust_timecode (Some "12:00:00:1.5") 2 = Some "12:00:00:1.5".
Proof.
  split.
  - apply (proj1 (adjust_timecode_falls_back (Some "00:00:xx") 2) ValueError).
    reflexivity.
  - apply (proj2 (adjust_timecode_falls_back (Some "12:00:00:1.5") 2) "12:00:00:1.5").
    + reflexivity.
    + intros h m s f. vm_compute. discriminate.
Defined.

End TimecodeFacts.

(** ** The deck client *)

Section DeckFacts.

Lemma append_assoc (a b c : string) : (a +:+ b) +:+ c = a +:+ (b +:+ c).
Proof. induction a as [|x a IH]; simpl; [reflexivity | now rewrite IH]. Qed.

Lemma append_empty_r (a : string) : a +:+ "" = a.
Proof. induction a as [|x a IH]; simpl; [reflexivity | now rewrite IH]. Qed.

Lemma prefix_append key rest : String.prefix key (key +:+ rest) = true.
Proof.
  induction key as [|k key IH]; simpl; [apply prefix_empty|].
  destruct (ascii_dec k k); [exact IH | congruence].
Qed.

(** Past a matched separator, splitting starts afresh. *)
Lemma split_from_skip sep a rest :
  Py.split_from sep (String.length a) (a +:+ rest) = Py.split_from sep 0 rest.
Proof. induction a as [|x a IH]; simpl; [reflexivity | exact IH]. Qed.

Lemma split_head sep s :
  exists pieces, Py.split s sep = before_key sep s :: pieces.
Proof.
  unfold Py.split. induction s as [|c s [pieces IH]]; [eexists; reflexivity|].
  cbn [Py.split_from before_key].
  destruct (String.prefix sep (String c s)); [eexists; reflexivity|].
  rewrite IH. eexists; reflexivity.
Qed.

(** A line that starts with the separator: the second piece is what stands
    between the separator and its next occurrence. *)
Lemma item1_split_key k sep rest :
  item1 (Py.split (String k sep +:+ rest) (String k sep)) =
  Ok (before_key (String k sep) rest).
Proof.
  unfold Py.split.
  change (String k sep +:+ rest) with (String k (sep +:+ rest)).
  cbn [Py.split_from].
  change (String k (sep +:+ rest)) with (String k sep +:+ rest).
  rewrite prefix_append. cbn [String.length Nat.pred].
  rewrite split_from_skip.
  destruct (split_head (String k sep) rest) as [pieces Hp].
  unfold Py.split in Hp. rewrite Hp. reflexivity.
Qed.

Lemma before_key_absent key s :
  Py.contains key s = false -> before_key key s = s.
Proof.
  induction s as [|c s IH]; [reflexivity|].
  cbn [Py.contains before_key]. intros [Hp Hs]%orb_false_iff.
  rewrite Hp, (IH Hs). reflexivity.
Qed.

Lemma scan_lines_found before rest after :
  no_timecode_line before ->
  scan_lines (before ++ (display_timecode_key +:+ rest) :: after) =
  Ok (Some (Py.strip (before_key display_timecode_key rest))).
Proof.
  induction 1 as [|l before Hl _ IH]; cbn [app scan_lines].
  - unfold Py.startswith. rewrite prefix_append.
    unfold display_timecode_key at 1 2. rewrite item1_split_key. reflexivity.
  - rewrite Hl. exact IH.
Qed.

Lemma scan_lines_none lines : no_timecode_line lines -> scan_lines lines = Ok None.
Proof.
  induction 1 as [|l lines Hl _ IH]; cbn [scan_lines]; [reflexivity|].
  rewrite Hl. exact IH.
Qed.

Lemma split_from_nonempty sep s : forall skip,
  exists piece pieces, Py.split_from sep skip s = piece :: pieces.
Proof.
  induction s as [|c s IH]; intros skip; [eexists _, _; reflexivity|].
  cbn [Py.split_from]. destruct skip as [|skip]; [|apply IH].
  destruct (String.prefix sep (String c s)); [eexists _, _; reflexivity|].
  destruct (IH 0%nat) as (piece & pieces & ->). eexists _, _; reflexivity.
Qed.

(** Once the response says [status:], taking the text after it cannot
    fail. *)
Lemma item1_split_present sep s :
  sep <> EmptyString -> Py.contains sep s = true ->
  exists piece, item1 (Py.split s sep) = Ok piece.
Proof.
  intros Hsep. unfold Py.split. induction s as [|c s IH].
  - destruct sep; [congruence | discriminate].
  - cbn [Py.contains Py.split_from].
    destruct (String.prefix sep (String c s)) eqn:Hp.
    + intros _.
      destruct (split_from_nonempty sep s (Nat.pred (String.length sep)))
        as (piece & pieces & ->).
      eexists; reflexivity.
    + cbn [orb]. intros Hs. destruct (IH Hs) as [piece Hpiece].
      destruct (Py.split_from sep 0 s) as [|p [|q l]]; try discriminate.
      eexists; reflexivity.
Qed.

Lemma quiet_false_stops chunk :
  quiet chunk = false ->
  String.eqb chunk "" || Py.contains (String Py.NL "") chunk = true.
Proof.
  unfold quiet. destruct (String.eqb chunk ""), (Py.contains _ chunk);
    simpl; congruence.
Qed.

Lemma quiet_true_goes_on chunk :
  quiet chunk = true ->
  String.eqb chunk "" || Py.contains (String Py.NL "") chunk = false.
Proof.
  unfold quiet. destruct (String.eqb chunk ""), (Py.contains _ chunk);
    simpl; congruence.
Qed.

Lemma recv_until_newline_receives incoming response :
  receives incoming response ->
  forall acc, recv_until_newline incoming acc = Ok (acc +:+ response).
Proof.
  induction 1 as [|chunk later Hq|chunk later response Hq _ IH]; intros acc;
    cbn [recv_until_newline].
  - now rewrite append_empty_r.
  - now rewrite (quiet_false_stops _ Hq).
  - rewrite (quiet_true_goes_on _ Hq), IH, append_assoc. reflexivity.
Qed.

Lemma recv_until_newline_fails incoming :
  recv_fails incoming -> forall acc, recv_until_newline incoming acc = Raise OSError.
Proof.
  induction 1 as [later|chunk later Hq _ IH]; intros acc;
    cbn [recv_until_newline]; [reflexivity|].
  rewrite (quiet_true_goes_on _ Hq). apply IH.
Qed.

(** Reading either fails or ends with a response. *)
Lemma recv_outcomes incoming :
  recv_fails incoming \/ exists response, receives incoming response.
Proof.
  induction incoming as [|[chunk|] later IH].
  - right. eexists. constructor.
  - destruct (quiet chunk) eqn:Hq.
    + destruct IH as [Hf|[response Hr]].
      * left. apply recv_fails_later; assumption.
      * right. eexists. apply receives_more; eassumption.
    + right. eexists. apply receives_last; assumption.
  - left. constructor.
Qed.

Lemma decode_utf8_cases bytes :
  decode_utf8 bytes = Ok bytes \/ decode_utf8 bytes = Raise UnicodeDecodeError.
Proof. unfold decode_utf8. destruct (utf8_check None bytes); auto. Qed.

(** C4.  [get_timecode_from_hyperdeck] is a total function whose result is
    [None] or a text: no exception reaches the caller.  When [sendall] or a
    [recv] raises, the result is [None].  When reading ends with a response:
    if the response is not UTF-8 the result is [None]; if its first line
    starting with [display timecode:] is that key followed by [rest], the
    result is [rest] up to the next occurrence of the key, stripped (hence
    all of [rest], stripped, when the key does not occur again); and if no
    line starts with the key, [status:] or not, the result is [None], the
    body of the [try] block itself ending without exception. *)
Theorem get_timecode_from_hyperdeck_answers socket_conn :
  (sendall_raises socket_conn = true \/ recv_fails (incoming socket_conn) ->
   get_timecode_from_hyperdeck socket_conn = None) /\
  (forall response,
     sendall_raises socket_conn = false ->
     receives (incoming socket_conn) response ->
     (decode_utf8 response = Raise UnicodeDecodeError ->
      get_timecode_from_hyperdeck socket_conn = None) /\
     (forall before rest after,
        decode_utf8 response = Ok response ->
        Py.split response (String Py.NL "") =
          before ++ (display_timecode_key +:+ rest) :: after ->
        no_timecode_line before ->
        get_timecode_from_hyperdeck socket_conn =
          Some (Py.strip (before_key display_timecode_key rest)) /\
        (Py.contains display_timecode_key rest = false ->
         get_timecode_from_hyperdeck socket_conn = Some (Py.strip rest))) /\
     (no_timecode_line (Py.split response (String Py.NL "")) ->
      get_timecode_from_hyperdeck socket_conn = None /\
      (decode_utf8 response = Ok response ->
       get_timecode_try socket_conn = Ok None))).
Proof.
  unfold get_timecode_from_hyperdeck, get_timecode_try. split.
  - intros [Hs|Hr].
    + rewrite Hs. reflexivity.
    + destruct (sendall_raises socket_conn); [reflexivity|].
      rewrite (recv_until_newline_fails _ Hr). reflexivity.
  - intros response -> Hrecv.
    rewrite (recv_until_newline_receives _ _ Hrecv). cbn [String.append mbind result_bind].
    split; [|split].
    + intros ->. reflexivity.
    + intros before rest after Hdec Hlines Hbefore.
      rewrite Hdec. cbn [mbind result_bind]. rewrite Hlines.
      rewrite (scan_lines_found _ _ _ Hbefore). split; [reflexivity|].
      intros Habsent. rewrite (before_key_absent _ _ Habsent). reflexivity.
    + intros Hnone. split.
      * destruct (decode_utf8_cases response) as [-> | ->]; [|reflexivity].
        cbn [mbind result_bind]. rewrite (scan_lines_none _ Hnone).
        cbn [mbind result_bind].
        destruct (Py.contains "status:" response); [|reflexivity].
        destruct (item1 _); reflexivity.
      * intros ->. cbn [mbind result_bind].
        rewrite (scan_lines_none _ Hnone). cbn [mbind result_bind].
        destruct (Py.contains "status:" response) eqn:Hst; [|reflexivity].
        destruct (item1_split_present "status:" response) as [piece ->];
          [discriminate | assumption | reflexivity].
Qed.

Lemma get_timecode_from_hyperdeck_answers_witness :
  get_timecode_from_hyperdeck deck_recording = Some "00:00:01:00" /\
  get_timecode_from_hyperdeck deck_stopped = None /\
  get_timecode_from_hyperdeck deck_broken = None.
Proof.
  split; [|split].
  - destruct (get_timecode_from_hyperdeck_answers deck_recording) as [_ Hok].
    destruct (Hok recording_answer eq_refl) as (_ & Hfound & _).
    { apply receives_last. reflexivity. }
    destruct (Hfound
                ["208 transport info:" +:+ String (Py.chr 13) "";
                 "status: record" +:+ String (Py.chr 13) ""]
                (" 00:00:01:00" +:+ String (Py.chr 13) "")
                [String (Py.chr 13) ""; ""]
                eq_refl eq_refl) as [_ Hvalue].
    + repeat constructor.
    + rewrite (Hvalue eq_refl). reflexivity.
  - destruct (get_timecode_from_hyperdeck_answers deck_stopped) as [_ Hok].
    destruct (Hok ("208 transport " +:+ "info:" +:+ crlf +:+ "status: stopped" +:+ crlf)
                eq_refl) as (_ & _ & Hnone).
    + apply receives_more; [reflexivity|]. apply receives_last. reflexivity.
    + apply Hnone. repeat constructor.
  - destruct (get_timecode_from_hyperdeck_answers deck_broken) as [Hfail _].
    apply Hfail. right. apply recv_fails_later; [reflexivity | constructor].
Defined.

End DeckFacts.

(** ** The EDL serialiser *)

Section EdlFacts.

Context {Input : Type}.
Variable input_str : Input -> string.

Lemma write_written file_path text content m j :
  write file_path text (World (<[file_path := content]> m) j) =
  World (<[file_path := content +:+ text]> m) j.
Proof. unfold write. cbn [files journal]. now rewrite alter_insert_eq. Qed.

Lemma write_clip_record file_path compensation_frames i c content m j :
  exists j',
    write_clip input_str file_path compensation_frames i c
      (World (<[file_path := content]> m) j) =
    World (<[file_path :=
             content +:+ edl_record input_str i (seen_clip compensation_frames c)]> m) j'.
Proof.
  unfold write_clip, seen_clip, edl_record, line, shift_clip.
  unfold log_all.
  destruct (0 <? compensation_frames); cbn [start end_ src files journal];
    rewrite !write_written; eexists; rewrite ?append_assoc; reflexivity.
Qed.

Lemma for_clips_records file_path compensation_frames clips m fuel :
  forall i content j,
    (length clips <= i + fuel)%nat ->
    exists j',
      for_clips input_str fuel i file_path compensation_frames
        (clips, World (<[file_path := content]> m) j) =
      (clips,
       World (<[file_path :=
                content +:+
                edl_records input_str i
                  (seen_clip compensation_frames <$> drop i clips)]> m) j').
Proof.
  induction fuel as [|fuel IH]; intros i content j Hlen; cbn [for_clips fst snd].
  - rewrite drop_ge by lia. cbn. rewrite append_empty_r. eexists; reflexivity.
  - destruct (clips !! i) as [c|] eqn:Hc.
    + destruct (write_clip_record file_path compensation_frames i c content m j)
        as [j1 ->].
      destruct (IH (S i) (content +:+
                  edl_record input_str i (seen_clip compensation_frames c)) j1)
        as [j2 ->]; [lia|].
      rewrite (drop_S _ _ _ Hc). cbn [fmap list_fmap edl_records].
      rewrite append_assoc. eexists; reflexivity.
    + apply lookup_ge_None_1 in Hc. rewrite drop_ge by lia. cbn.
      rewrite append_empty_r. eexists; reflexivity.
Qed.

(** A call with at least one clip leaves the list as it was, and the file
    holds the header and one record per clip, in the order of the list. *)
Lemma generate_edl_writes clips file_path compensation_frames w :
  clips <> [] ->
  (generate_edl input_str clips file_path compensation_frames w).1 = clips /\
  files (generate_edl input_str clips file_path compensation_frames w).2 =
    <[file_path := edl_text input_str (seen_clip compensation_frames <$> clips)]>
      (files w).
Proof.
  intros Hne. unfold generate_edl. destruct clips as [|c0 clips0]; [congruence|].
  set (clips := c0 :: clips0).
  unfold open_w. rewrite !write_written.
  destruct (for_clips_records file_path compensation_frames clips (files w)
              (length clips) 0%nat
              (("" +:+ ("TITLE: ATEM Program Output" +:+ String Py.NL "")) +:+
               ("FCM: NON-DROP FRAME" +:+ String Py.NL ""))
              (journal w)) as [j' Hloop]; [lia|].
  rewrite Hloop. cbn [fst snd log_all files]. split; [reflexivity|].
  rewrite drop_0. unfold edl_text, line.
  rewrite !append_assoc. reflexivity.
Qed.

(** C8.  With an empty list of clips, [generate_edl] opens and writes no
    file: every file is as before.  It logs one warning and returns, the
    list still empty. *)
Theorem generate_edl_nothing_to_save file_path compensation_frames w :
  generate_edl input_str [] file_path compensation_frames w =
    ([], World (files w)
           (journal w ++ [Log WARNING "No cuts detected, no data to save in the EDL."])) /\
  files (generate_edl input_str [] file_path compensation_frames w).2 = files w.
Proof. split; reflexivity. Qed.




End EdlFacts.


(** C5.  For the single clip from 00:00:00:00 to 00:00:05:00 of source
    Input1 and no compensation, the destination file holds exactly the two
    header lines, the record line numbered 0001 with the pair of timecodes
    twice, and the line naming the source; no other file changes. *)
Theorem generate_edl_single_clip file_path w :
  files (generate_edl (fun s : string => s)
           [Clip (Some "00:00:00:00") (Some "00:00:05:00") "Input1"]
           file_path 0 w).2 =
  <[file_path :=
      line "TITLE: ATEM Program Output" +:+
      line "FCM: NON-DROP FRAME" +:+
      line "0001  AX    V     C   00:00:00:00 00:00:05:00 00:00:00:00 00:00:05:00" +:+
      line "* FROM CLIP NAME: Input1"]> (files w).
Proof.
  rewrite (proj2 (generate_edl_writes (fun s : string => s)
                    [Clip (Some "00:00:00:00") (Some "00:00:05:00") "Input1"]
                    file_path 0 w ltac:(discriminate))).
  reflexivity.
Qed.

(** ** The polling loop *)

Section MonitorFacts.

Context {Input : Type} `{EqDecision Input}.
Variable input_str : Input -> string.
Variable emit_accepts_none : bool.

Local Abbreviation turn_of := (tick input_str emit_accepts_none).
Local Abbreviation loop := (monitor input_str emit_accepts_none).

Ltac tick_cases st smp :=
  destruct st as [lpi ltc cl tv]; destruct smp as [[e|v] d];
  unfold tick;
  cbn [switcher deck last_program_input last_timecode clips timecode];
  try destruct (decide (v = lpi)) as [Heq|Hne];
  try destruct lpi as [source|];
  try destruct ltc as [[|c r]|];
  try destruct d as [[|c' r']|];
  try destruct emit_accepts_none;
  cbn [after signals records last_program_input last_timecode clips timecode
       app Py.str_of].

(** A turn appends at most one clip, and only at an edge with something
    pending. *)
Lemma tick_clips st smp :
  clips (after (turn_of st smp)) = clips st \/
  exists program_input source first,
    switcher smp = ReadGives program_input /\
    program_input <> last_program_input st /\
    last_program_input st = Some source /\
    last_timecode st = Some first /\ first <> "" /\
    clips (after (turn_of st smp)) = clips st ++ [Clip (Some first) (deck smp) source].
Proof.
  tick_cases st smp; auto; right; eexists _, _, _; repeat split; eauto; discriminate.
Qed.

Lemma tick_edge_appends st smp program_input source first :
  switcher smp = ReadGives program_input ->
  program_input <> last_program_input st ->
  last_program_input st = Some source ->
  last_timecode st = Some first -> first <> "" ->
  clips (after (turn_of st smp)) = clips st ++ [Clip (Some first) (deck smp) source].
Proof.
  tick_cases st smp; cbn; intros; simplify_eq; try reflexivity; congruence.
Qed.

Lemma tick_nothing_pending st smp :
  last_timecode st = None -> clips (after (turn_of st smp)) = clips st.
Proof. tick_cases st smp; cbn; intros; simplify_eq; reflexivity. Qed.

Lemma tick_holds st smp :
  holds_input (last_program_input st) smp ->
  last_program_input (after (turn_of st smp)) = last_program_input st /\
  last_timecode (after (turn_of st smp)) = last_timecode st /\
  clips (after (turn_of st smp)) = clips st.
Proof.
  unfold holds_input.
  tick_cases st smp; cbn; intros [Hs|[x Hs]]; simplify_eq; auto.
Qed.

Lemma tick_moved st smp program_input :
  switcher smp = ReadGives program_input ->
  program_input <> last_program_input st ->
  last_program_input (after (turn_of st smp)) = program_input ->
  last_timecode (after (turn_of st smp)) = deck smp.
Proof.
  tick_cases st smp; cbn; intros; simplify_eq; try reflexivity; congruence.
Qed.

Lemma tick_moves st smp program_input :
  switcher smp = ReadGives program_input ->
  program_input <> last_program_input st ->
  emit_accepts_none = true \/ deck smp <> None \/
    Py.truthy (last_timecode st) = false \/ last_program_input st = None ->
  last_program_input (after (turn_of st smp)) = program_input /\
  last_timecode (after (turn_of st smp)) = deck smp.
Proof.
  tick_cases st smp; cbn; intros ? ? Hor; simplify_eq; auto;
    destruct Hor as [?|[?|[?|?]]]; congruence.
Qed.

Lemma monitor_cons st smp later :
  (loop st (smp :: later)).1.1 = (loop (after (turn_of st smp)) later).1.1.
Proof.
  cbn [monitor]. destruct (loop (after (turn_of st smp)) later) as [[st' s] r].
  reflexivity.
Qed.

(** While nothing is pending and the input holds, nothing is appended; nor
    at the turn after, whatever it reads. *)
Lemma monitor_nothing_pending idle : forall st next,
  last_timecode st = None ->
  Forall (holds_input (last_program_input st)) idle ->
  clips (loop st (idle ++ [next])).1.1 = clips st.
Proof.
  induction idle as [|smp idle IH]; intros st next Hnone Hidle.
  - cbn [app]. rewrite monitor_cons. cbn [monitor fst].
    apply tick_nothing_pending, Hnone.
  - cbn [app]. rewrite monitor_cons.
    inversion Hidle as [|? ? Hsmp Hrest]; subst.
    destruct (tick_holds st smp Hsmp) as (Hi & Ht & Hc).
    rewrite IH; [exact Hc | congruence | now rewrite Hi].
Qed.

(** C9, as amended.  In every turn of the loop in which the switcher is
    read, [update_input_signal] is emitted with the input as text, edge or
    no edge.  [update_timecode_signal] is emitted exactly when, in addition,
    the deck's answer is a non-empty text, and then with that text, edge or
    no edge.  [update_log_signal] is emitted only in a turn in which the
    input read differs from the last one. *)
Theorem tick_signals st smp :
  (forall program_input,
     switcher smp = ReadGives program_input ->
     In (update_input_signal (program_input_str input_str program_input))
        (signals (turn_of st smp))) /\
  (forall timecode,
     In (update_timecode_signal timecode) (signals (turn_of st smp)) <->
     (exists program_input, switcher smp = ReadGives program_input) /\
     deck smp = Some timecode /\ timecode <> "") /\
  (forall source first last,
     In (update_log_signal source first last) (signals (turn_of st smp)) ->
     exists program_input,
       switcher smp = ReadGives program_input /\
       program_input <> last_program_input st).
Proof.
  split; [|split].
  - intros program_input Hread.
    tick_cases st smp; cbn in Hread; simplify_eq; cbn; auto.
  - intros t. split.
    + tick_cases st smp; cbn; intros Hin;
        repeat (destruct Hin as [Hin|Hin]; simplify_eq); try contradiction;
        (split; [eexists; reflexivity | split; [reflexivity | discriminate]]).
    + intros ([program_input Hread] & Hdeck & Hfilled).
      tick_cases st smp; cbn in Hread, Hdeck; simplify_eq; cbn; auto.
  - intros source' first last.
    tick_cases st smp; cbn; intros Hin;
      repeat (destruct Hin as [Hin|Hin]; simplify_eq); try contradiction;
      (eexists; split; [reflexivity | assumption]).
Qed.

(** C10.  A turn of the loop appends a clip only at an edge, and only when
    an input has been seen before and the pending timecode is not [None].
    So, once a turn has taken up an input with the deck's answer [None],
    that is what is pending, and no clip is appended while the input holds
    nor at the turn after that, the next edge included, nor by a stop: the
    interval is dropped.  And a clip appended in a turn whose own deck
    answer is [None] has [None] for its end. *)
Theorem tick_appends st smp :
  (clips (after (turn_of st smp)) <> clips st ->
   (exists source, last_program_input st = Some source) /\
   last_timecode st <> None /\
   exists program_input,
     switcher smp = ReadGives program_input /\
     program_input <> last_program_input st) /\
  (forall program_input,
     switcher smp = ReadGives program_input ->
     program_input <> last_program_input st ->
     deck smp = None ->
     last_program_input (after (turn_of st smp)) = program_input ->
     last_timecode (after (turn_of st smp)) = None) /\
  (last_timecode st = None ->
   finish st = Ok (clips st) /\
   forall idle next,
     Forall (holds_input (last_program_input st)) idle ->
     clips (loop st (idle ++ [next])).1.1 = clips st) /\
  (forall program_input source first,
     switcher smp = ReadGives program_input ->
     program_input <> last_program_input st ->
     last_program_input st = Some source ->
     last_timecode st = Some first -> first <> "" ->
     deck smp = None ->
     clips (after (turn_of st smp)) = clips st ++ [Clip (Some first) None source]).
Proof.
  split; [|split; [|split]].
  - intros Hgrew. destruct (tick_clips st smp) as [Hsame|Hedge]; [contradiction|].
    destruct Hedge as (program_input & source & first & Hr & Hne & Hs & Ht & _).
    split; [eauto|]. split; [congruence | eauto].
  - intros program_input Hread Hne Hdeck Hmoved.
    rewrite (tick_moved st smp program_input Hread Hne Hmoved). exact Hdeck.
  - intros Hnone. split.
    + unfold finish. rewrite Hnone. destruct (last_program_input st); reflexivity.
    + intros idle next Hidle. apply monitor_nothing_pending; assumption.
  - intros program_input source first Hread Hne Hs Ht Hfirst Hdeck.
    rewrite (tick_edge_appends st smp program_input source first) by assumption.
    rewrite Hdeck. reflexivity.
Qed.

End MonitorFacts.

(** C2.  The samples (A, 00:00:00:00), (A, 00:00:01:00), (B, 00:00:02:00),
    (B, 00:00:03:00), (C, 00:00:04:00) and then a stop give exactly three
    clips, in this order: A from 00:00:00:00 to 00:00:02:00, B from
    00:00:02:00 to 00:00:04:00, and C from 00:00:04:00 to 00:00:04:00, the
    last sampled timecode. *)
Theorem session_clips_of_samples (emit_accepts_none : bool) :
  session_clips cam_str emit_accepts_none
    [seen A "00:00:00:00"; seen A "00:00:01:00"; seen B "00:00:02:00";
     seen B "00:00:03:00"; seen C "00:00:04:00"] =
  Ok [Clip (Some "00:00:00:00") (Some "00:00:02:00") A;
      Clip (Some "00:00:02:00") (Some "00:00:04:00") B;
      Clip (Some "00:00:04:00") (Some "00:00:04:00") C].
Proof. destruct emit_accepts_none; reflexivity. Qed.

(** C9, as stated, fails: a turn in which the deck gives no timecode emits
    the input and no timecode, and a turn in which reading the switcher
    raises emits nothing. *)
Lemma tick_without_timecode_signal :
  signals (tick cam_str true initial (Sample (ReadGives (Some A)) None)) =
    [update_input_signal "A"] /\
  signals (tick cam_str false initial (Sample (ReadGives (Some A)) None)) =
    [update_input_signal "A"] /\
  (forall timecode,
     ~ In (update_timecode_signal timecode)
          (signals (tick cam_str true initial (Sample (ReadGives (Some A)) None)))) /\
  signals (tick cam_str true initial (Sample (ReadRaises OSError) (Some "00:00:01:00"))) = [].
Proof.
  repeat split; try reflexivity.
  intros timecode [Hin|[]]. discriminate.
Qed.

Lemma tick_signals_witness :
  In (update_input_signal "B")
     (signals (tick cam_str false (LoopState (Some A) (Some "00:00:00:00") [] (Bound None))
                 (seen B "00:00:02:00"))) /\
  In (update_timecode_signal "00:00:01:00")
     (signals (tick cam_str false (LoopState (Some A) (Some "00:00:00:00") [] (Bound None))
                 (seen A "00:00:01:00"))) /\
  (exists program_input,
     switcher (seen B "00:00:02:00") = ReadGives program_input /\
     program_input <> Some A).
Proof.
  split; [|split].
  - apply (proj1 (tick_signals cam_str false
                    (LoopState (Some A) (Some "00:00:00:00") [] (Bound None))
                    (seen B "00:00:02:00")) (Some B)).
    reflexivity.
  - apply (proj1 (proj2 (tick_signals cam_str false
                    (LoopState (Some A) (Some "00:00:00:00") [] (Bound None))
                    (seen A "00:00:01:00")))).
    split; [eexists; reflexivity | split; [reflexivity | discriminate]].
  - apply (proj2 (proj2 (tick_signals cam_str false
                    (LoopState (Some A) (Some "00:00:00:00") [] (Bound None))
                    (seen B "00:00:02:00")))
             "A" "00:00:00:00" (Some "00:00:02:00")).
    vm_compute. right. right. left. reflexivity.
Defined.

Lemma tick_appends_witness :
  clips (after (tick cam_str false
                  (LoopState (Some A) (Some "00:00:00:00") [] (Bound None))
                  (Sample (ReadGives (Some B)) None))) =
    [Clip (Some "00:00:00:00") None A] /\
  clips (monitor cam_str false (LoopState (Some B) None [] (Bound None))
           ([seen B "00:00:03:00"] ++ [seen C "00:00:04:00"])).1.1 = [] /\
  finish (LoopState (Some B) None ([] : list (clip cam)) (Bound None)) = Ok [].
Proof.
  split; [|split].
  - apply (proj2 (proj2 (proj2 (tick_appends cam_str false
             (LoopState (Some A) (Some "00:00:00:00") [] (Bound None))
             (Sample (ReadGives (Some B)) None))))
           (Some B) A "00:00:00:00"); try reflexivity; discriminate.
  - apply (proj1 (proj2 (proj2 (tick_appends cam_str false
             (LoopState (Some B) None [] (Bound None)) (seen C "00:00:04:00"))))).
    + reflexivity.
    + repeat constructor.
  - apply (proj1 (proj2 (proj2 (tick_appends cam_str false
             (LoopState (Some B) None [] (Bound None)) (seen C "00:00:04:00"))))).
    reflexivity.
Defined.

(** * Further properties of the code *)

(** ** Timecode arithmetic *)

Section MoreTimecodeFacts.

Lemma add_frames_count tc d : frame_count (add_frames tc d) = frame_count tc + d.
Proof.
  destruct tc as [h m s f]. unfold add_frames, frame_count.
  cbn [hours minutes seconds frames].
  destruct (25 <=? f + d);
    [destruct (60 <=? s + 1) | destruct (60 <=? s)];
    try (destruct (60 <=? m + 1)); try (destruct (60 <=? m));
    cbn [hours minutes seconds frames]; lia.
Qed.

(** X1.  Whatever text parses as four integers and whatever the
    compensation, [adjust_timecode] returns a text that parses again, and
    that stands for exactly [compensation_frames] more frames at 25 frames
    per second: a carry moves frames between fields and never loses one. *)
Theorem adjust_timecode_adds_frames text tc d :
  unpack_fields text = Ok tc ->
  exists tc',
    adjust_timecode (Some text) d = Some (format_fields tc') /\
    unpack_fields (format_fields tc') = Ok tc' /\
    frame_count tc' = frame_count tc + d.
Proof.
  intros Htext. exists (add_frames tc d). split; [|split].
  - unfold adjust_timecode, adjust_timecode_try. rewrite Htext. reflexivity.
  - apply unpack_format_fields.
  - apply add_frames_count.
Qed.

Lemma adjust_timecode_adds_frames_witness :
  exists tc',
    adjust_timecode (Some " 1:59:59:24") 26 = Some (format_fields tc') /\
    unpack_fields (format_fields tc') = Ok tc' /\
    frame_count tc' = frame_count (Fields 1 59 59 24) + 26.
Proof.
  apply (adjust_timecode_adds_frames " 1:59:59:24" (Fields 1 59 59 24) 26).
  reflexivity.
Defined.

Lemma add_frames_valid tc d :
  valid_timecode 25 tc -> 0 <= d ->
  (valid_timecode 25 (add_frames tc d) <-> frames tc + d < 50).
Proof.
  destruct tc as [h m s f]. unfold valid_timecode, add_frames.
  cbn [hours minutes seconds frames]. intros (Hh & Hm & Hs & Hf) Hd.
  destruct (Z.leb_spec 25 (f + d));
    [destruct (Z.leb_spec 60 (s + 1)) | destruct (Z.leb_spec 60 s)];
    try (destruct (Z.leb_spec 60 (m + 1))); try (destruct (Z.leb_spec 60 m));
    cbn [hours minutes seconds frames]; lia.
Qed.

(** X2.  For a timecode valid at 25 frames per second and a non-negative
    compensation, the adjusted timecode is valid again exactly when the
    frames and the compensation together stay below 50: one carry per field
    is all the code performs. *)
Theorem add_frames_valid_iff tc d :
  valid_timecode 25 tc -> 0 <= d ->
  (valid_timecode 25 (add_frames tc d) <-> frames tc + d < 50).
Proof. exact (add_frames_valid tc d). Qed.

Lemma add_frames_valid_iff_witness :
  valid_timecode 25 (add_frames (Fields 0 59 59 24) 25) <-> 24 + 25 < 50.
Proof.
  apply (add_frames_valid_iff (Fields 0 59 59 24) 25).
  - unfold valid_timecode; simpl; lia.
  - lia.
Defined.

(** X3.  A compensation of zero leaves the text of a timecode valid at 25
    frames per second as it is. *)
Theorem adjust_timecode_zero tc :
  valid_timecode 25 tc ->
  adjust_timecode (Some (format_fields tc)) 0 = Some (format_fields tc).
Proof.
  intros Hv. rewrite adjust_timecode_format. do 2 f_equal.
  destruct tc as [h m s f]. unfold valid_timecode, add_frames in *.
  cbn [hours minutes seconds frames] in *. destruct Hv as (Hh & Hm & Hs & Hf).
  destruct (Z.leb_spec 25 (f + 0)); [lia|].
  destruct (Z.leb_spec 60 s); [lia|].
  destruct (Z.leb_spec 60 m); [lia|].
  f_equal; lia.
Qed.

Lemma adjust_timecode_zero_witness :
  adjust_timecode (Some (format_fields (Fields 12 0 59 24))) 0 =
  Some (format_fields (Fields 12 0 59 24)).
Proof.
  apply (adjust_timecode_zero (Fields 12 0 59 24)).
  unfold valid_timecode; simpl; lia.
Defined.

Lemma add_frames_twice tc a b :
  valid_timecode 25 tc -> 0 <= a -> 0 <= b -> frames tc + a + b < 50 ->
  add_frames (add_frames tc a) b = add_frames tc (a + b).
Proof.
  intros Hv Ha Hb Hroom.
  assert (Hva : valid_timecode 25 (add_frames tc a)).
  { apply add_frames_valid; [assumption | assumption | lia]. }
  rewrite (add_frames_carry_rule (add_frames tc a) b Hva Hb).
  - rewrite (add_frames_carry_rule tc (a + b) Hv) by lia.
    rewrite (add_frames_carry_rule tc a Hv Ha) by lia.
    destruct tc as [h m s f]. unfold valid_timecode, carry_rule in *.
    cbn [hours minutes seconds frames] in *.
    destruct Hv as (Hh & Hm & Hs & Hf).
    f_equal; Z.div_mod_to_equations; lia.
  - destruct tc as [h m s f]. unfold valid_timecode, add_frames in *.
    cbn [hours minutes seconds frames] in *.
    destruct Hv as (Hh & Hm & Hs & Hf).
    destruct (Z.leb_spec 25 (f + a));
      [destruct (Z.leb_spec 60 (s + 1)) | destruct (Z.leb_spec 60 s)];
      try (destruct (Z.leb_spec 60 (m + 1))); try (destruct (Z.leb_spec 60 m));
      cbn [hours minutes seconds frames]; lia.
Qed.

(** X4.  Adjusting twice is adjusting once by the sum, for a timecode valid
    at 25 frames per second and non-negative compensations that together
    leave room for one carry. *)
Theorem adjust_timecode_twice tc a b :
  valid_timecode 25 tc -> 0 <= a -> 0 <= b -> frames tc + a + b < 50 ->
  adjust_timecode (adjust_timecode (Some (format_fields tc)) a) b =
  adjust_timecode (Some (format_fields tc)) (a + b).
Proof.
  intros Hv Ha Hb Hroom. rewrite !adjust_timecode_format.
  rewrite add_frames_twice by assumption. reflexivity.
Qed.

Lemma adjust_timecode_twice_witness :
  adjust_timecode (adjust_timecode (Some (format_fields (Fields 0 59 59 20))) 2) 3 =
  adjust_timecode (Some (format_fields (Fields 0 59 59 20))) (2 + 3).
Proof.
  apply (adjust_timecode_twice (Fields 0 59 59 20) 2 3); try lia.
  - unfold valid_timecode; simpl; lia.
  - simpl; lia.
Defined.

End MoreTimecodeFacts.

(** ** The deck client *)

Section MoreDeckFacts.

Lemma recv_until_newline_stops pre c later : forall acc,
  Forall (fun chunk => quiet chunk = true) pre -> quiet c = false ->
  recv_until_newline ((Chunk <$> pre) ++ Chunk c :: later) acc =
  recv_until_newline ((Chunk <$> pre) ++ [Chunk c]) acc.
Proof.
  induction pre as [|p pre IH]; intros acc Hpre Hc; cbn [fmap list_fmap app].
  - cbn [recv_until_newline]. rewrite (quiet_false_stops _ Hc). reflexivity.
  - inversion Hpre as [|? ? Hp Hrest]; subst.
    cbn [recv_until_newline]. rewrite (quiet_true_goes_on _ Hp).
    apply IH; assumption.
Qed.

(** X5.  The deck client reads up to the first chunk that is empty or
    holds a newline, and no further: what the deck sends after that chunk
    has no part in the answer. *)
Theorem get_timecode_from_hyperdeck_stops_reading raises pre c later :
  Forall (fun chunk => quiet chunk = true) pre -> quiet c = false ->
  get_timecode_from_hyperdeck
    (Connection raises ((Chunk <$> pre) ++ Chunk c :: later)) =
  get_timecode_from_hyperdeck
    (Connection raises ((Chunk <$> pre) ++ [Chunk c])).
Proof.
  intros Hpre Hc. unfold get_timecode_from_hyperdeck, get_timecode_try.
  cbn [sendall_raises incoming].
  rewrite (recv_until_newline_stops pre c later "" Hpre Hc). reflexivity.
Qed.

Lemma get_timecode_from_hyperdeck_stops_reading_witness :
  get_timecode_from_hyperdeck
    (Connection false
       ((Chunk <$> ["208 transport info:"]) ++
        Chunk (crlf +:+ "status: record" +:+ crlf) ::
        [Chunk ("display timecode: 00:00:01:00" +:+ crlf)])) =
  get_timecode_from_hyperdeck
    (Connection false
       ((Chunk <$> ["208 transport info:"]) ++
        [Chunk (crlf +:+ "status: record" +:+ crlf)])).
Proof.
  apply (get_timecode_from_hyperdeck_stops_reading false
           ["208 transport info:"] (crlf +:+ "status: record" +:+ crlf)
           [Chunk ("display timecode: 00:00:01:00" +:+ crlf)]).
  - repeat constructor.
  - reflexivity.
Defined.

Lemma rstrip_by_cons blank c r :
  Py.rstrip_by blank (String c r) =
  match Py.rstrip_by blank r with
  | EmptyString => if blank c then EmptyString else String c EmptyString
  | String x y => String c (String x y)
  end.
Proof. reflexivity. Qed.

Lemma rstrip_by_twice blank s :
  Py.rstrip_by blank (Py.rstrip_by blank s) = Py.rstrip_by blank s.
Proof.
  induction s as [|c s IH]; [reflexivity|].
  rewrite rstrip_by_cons. destruct (Py.rstrip_by blank s) as [|x y] eqn:Hu.
  - destruct (blank c) eqn:Hc; [reflexivity|].
    rewrite rstrip_by_cons. cbn [Py.rstrip_by]. rewrite Hc. reflexivity.
  - rewrite rstrip_by_cons, IH. reflexivity.
Qed.

Lemma lstrip_by_head blank s :
  Py.lstrip_by blank s = "" \/
  exists c r, Py.lstrip_by blank s = String c r /\ blank c = false.
Proof.
  induction s as [|c s IH]; [left; reflexivity|].
  cbn [Py.lstrip_by]. destruct (blank c) eqn:Hc; [exact IH|].
  right. eexists _, _. split; [reflexivity | exact Hc].
Qed.

Lemma rstrip_by_head blank c r :
  blank c = false -> exists r', Py.rstrip_by blank (String c r) = String c r'.
Proof.
  intros Hc. cbn [Py.rstrip_by]. rewrite Hc.
  destruct (Py.rstrip_by blank r); eexists; reflexivity.
Qed.

Lemma strip_twice s : Py.strip (Py.strip s) = Py.strip s.
Proof.
  unfold Py.strip.
  destruct (lstrip_by_head Py.isspace s) as [-> | (c & r & -> & Hc)]; [reflexivity|].
  destruct (rstrip_by_head Py.isspace c r Hc) as [r' Hr].
  rewrite Hr at 1. cbn [Py.lstrip_by]. rewrite Hc. rewrite <- Hr.
  apply rstrip_by_twice.
Qed.

Lemma all_chars_lstrip p blank s :
  all_chars p s = true -> all_chars p (Py.lstrip_by blank s) = true.
Proof.
  induction s as [|c s IH]; [trivial|]. cbn [Py.lstrip_by all_chars].
  intros [Hc Hs]%andb_prop. destruct (blank c); [auto|].
  cbn [all_chars]. rewrite Hc, Hs. reflexivity.
Qed.

Lemma all_chars_rstrip p blank s :
  all_chars p s = true -> all_chars p (Py.rstrip_by blank s) = true.
Proof.
  induction s as [|c s IH]; [trivial|]. cbn [Py.rstrip_by all_chars].
  intros [Hc Hs]%andb_prop. specialize (IH Hs).
  destruct (Py.rstrip_by blank s).
  - destruct (blank c); [reflexivity|]. cbn [all_chars]. rewrite Hc. reflexivity.
  - cbn [all_chars] in *. rewrite Hc, IH. reflexivity.
Qed.

(** The pieces of a split are made of characters of the text. *)
Lemma all_chars_split_from p sep s : forall skip,
  all_chars p s = true ->
  Forall (fun piece => all_chars p piece = true) (Py.split_from sep skip s).
Proof.
  induction s as [|c s IH]; intros skip Hs.
  - repeat constructor.
  - cbn [all_chars] in Hs. apply andb_prop in Hs as [Hc Hs].
    cbn [Py.split_from]. destruct skip as [|skip]; [|apply IH, Hs].
    destruct (String.prefix sep (String c s)).
    + constructor; [reflexivity | apply IH, Hs].
    + pose proof (IH 0%nat Hs) as Hrec.
      destruct (Py.split_from sep 0 s) as [|piece pieces].
      * repeat constructor. cbn [all_chars]. rewrite Hc. reflexivity.
      * inversion Hrec; subst. constructor; [|assumption].
        cbn [all_chars]. rewrite Hc. assumption.
Qed.

(** The pieces of a split at newlines hold no newline. *)
Lemma split_lines_no_newline s : forall skip,
  Forall (fun piece => all_chars not_newline piece = true)
         (Py.split_from (String Py.NL "") skip s).
Proof.
  induction s as [|c s IH]; intros skip; [repeat constructor|].
  cbn [Py.split_from]. destruct skip as [|skip]; [|apply IH].
  cbn [String.prefix]. destruct (ascii_dec Py.NL c) as [E|N].
  - rewrite prefix_empty. constructor; [reflexivity | apply IH].
  - pose proof (IH 0%nat) as Hrec.
    assert (Hc : not_newline c = true).
    { unfold not_newline. apply negb_true_iff, Ascii.eqb_neq. congruence. }
    destruct (Py.split_from (String Py.NL "") 0 s) as [|piece pieces].
    + repeat constructor. cbn [all_chars]. rewrite Hc. reflexivity.
    + inversion Hrec; subst. constructor; [|assumption].
      cbn [all_chars]. rewrite Hc. assumption.
Qed.

Lemma item1_Forall (P : string -> Prop) pieces piece :
  Forall P pieces -> item1 pieces = Ok piece -> P piece.
Proof.
  intros Hall. destruct pieces as [|a [|b l]]; try discriminate.
  intros [= <-]. inversion Hall as [|? ? _ Hrest]; subst.
  inversion Hrest; subst. assumption.
Qed.

Lemma scan_lines_some lines t :
  scan_lines lines = Ok (Some t) ->
  exists line piece,
    In line lines /\ item1 (Py.split line display_timecode_key) = Ok piece /\
    t = Py.strip piece.
Proof.
  induction lines as [|line lines IH]; [discriminate|].
  cbn [scan_lines]. destruct (Py.startswith line display_timecode_key).
  - destruct (item1 (Py.split line display_timecode_key)) as [piece|e] eqn:Hp;
      [|discriminate].
    cbn. intros [= <-]. exists line, piece. repeat split; [left; reflexivity | exact Hp].
  - intros Hrest. destruct (IH Hrest) as (l & piece & Hin & Hp & Ht).
    exists l, piece. repeat split; [right; exact Hin | exact Hp | exact Ht].
Qed.

Lemma get_timecode_from_hyperdeck_some socket_conn t :
  get_timecode_from_hyperdeck socket_conn = Some t ->
  exists response, scan_lines (Py.split response (String Py.NL "")) = Ok (Some t).
Proof.
  unfold get_timecode_from_hyperdeck, get_timecode_try.
  destruct (sendall_raises socket_conn); [discriminate|].
  destruct (recv_until_newline (incoming socket_conn) "") as [response|]; [|discriminate].
  cbn [mbind result_bind]. unfold decode_utf8.
  destruct (utf8_check None response); [|discriminate].
  cbn [mbind result_bind].
  destruct (scan_lines (Py.split response (String Py.NL ""))) as [[found|]|] eqn:Hscan;
    cbn [mbind result_bind mret result_ret].
  - intros [= ->]. exists response. exact Hscan.
  - destruct (Py.contains "status:" response); [|discriminate].
    destruct (item1 _); discriminate.
  - discriminate.
Qed.

(** X6.  A timecode returned by the deck client has no blank at either
    end (stripping it again changes nothing) and holds no newline. *)
Theorem get_timecode_from_hyperdeck_clean socket_conn t :
  get_timecode_from_hyperdeck socket_conn = Some t ->
  Py.strip t = t /\ all_chars not_newline t = true.
Proof.
  intros Hsome.
  destruct (get_timecode_from_hyperdeck_some _ _ Hsome) as [response Hscan].
  destruct (scan_lines_some _ _ Hscan) as (line & piece & Hin & Hp & ->).
  split; [apply strip_twice|].
  unfold Py.strip. apply all_chars_rstrip, all_chars_lstrip.
  assert (Hline : all_chars not_newline line = true).
  { pose proof (split_lines_no_newline response 0%nat) as Hlines.
    rewrite List.Forall_forall in Hlines. apply Hlines. exact Hin. }
  exact (item1_Forall _ _ _
           (all_chars_split_from not_newline _ line 0%nat Hline) Hp).
Qed.

Lemma get_timecode_from_hyperdeck_clean_witness :
  Py.strip "00:00:01:00" = "00:00:01:00" /\
  all_chars not_newline "00:00:01:00" = true.
Proof.
  apply (get_timecode_from_hyperdeck_clean deck_recording "00:00:01:00").
  reflexivity.
Defined.

End MoreDeckFacts.

(** ** The EDL serialiser *)

Section MoreEdlFacts.

Context {Input : Type}.
Variable input_str : Input -> string.

Lemma write_clip_not_positive file_path c i (cl : clip Input) w :
  c <= 0 ->
  write_clip input_str file_path c i cl w = write_clip input_str file_path 0 i cl w.
Proof.
  intros Hc. unfold write_clip. rewrite (proj2 (Z.ltb_ge 0 c) Hc). reflexivity.
Qed.

Lemma for_clips_not_positive file_path c fuel : forall i (st : list (clip Input) * world),
  c <= 0 ->
  for_clips input_str fuel i file_path c st = for_clips input_str fuel i file_path 0 st.
Proof.
  induction fuel as [|fuel IH]; intros i st Hc; [reflexivity|].
  cbn [for_clips]. destruct (st.1 !! i); [|reflexivity].
  rewrite write_clip_not_positive by assumption. apply IH, Hc.
Qed.

(** X7.  A compensation that is zero or negative is not applied:
    [generate_edl] then does exactly what it does without compensation. *)
Theorem generate_edl_not_positive (clips : list (clip Input)) file_path c w :
  c <= 0 ->
  generate_edl input_str clips file_path c w =
  generate_edl input_str clips file_path 0 w.
Proof.
  intros Hc. unfold generate_edl. destruct clips as [|c0 clips0]; [reflexivity|].
  rewrite for_clips_not_positive by assumption. reflexivity.
Qed.

(** X8.  [generate_edl] touches no file but its destination. *)
Theorem generate_edl_other_files (clips : list (clip Input)) file_path c w other :
  other <> file_path ->
  files (generate_edl input_str clips file_path c w).2 !! other = files w !! other.
Proof.
  intros Hother. destruct clips as [|c0 clips0]; [reflexivity|].
  rewrite (proj2 (generate_edl_writes input_str (c0 :: clips0) file_path c w
                    ltac:(discriminate))).
  apply lookup_insert_ne. congruence.
Qed.

(** X9.  What the destination held before has no part in what it holds
    afterwards: writing the same clips a second time changes no file. *)
Theorem generate_edl_again (clips : list (clip Input)) file_path c w :
  files (generate_edl input_str clips file_path c
           (generate_edl input_str clips file_path c w).2).2 =
  files (generate_edl input_str clips file_path c w).2.
Proof.
  destruct clips as [|c0 clips0]; [reflexivity|].
  rewrite (proj2 (generate_edl_writes input_str (c0 :: clips0) file_path c _
                    ltac:(discriminate))).
  rewrite (proj2 (generate_edl_writes input_str (c0 :: clips0) file_path c w
                    ltac:(discriminate))).
  apply insert_insert_eq.
Qed.

(** X10.  A clip without an end, as the loop appends when the deck gave no
    timecode at the edge, is written with the word None where the end
    belongs, compensation or not. *)
Theorem generate_edl_missing_end first source file_path c w :
  files (generate_edl input_str [Clip first None source] file_path c w).2 !! file_path =
  Some (line "TITLE: ATEM Program Output" +:+
        line "FCM: NON-DROP FRAME" +:+
        line ("0001  AX    V     C   " +:+
              Py.str_of (start (seen_clip c (Clip first None source))) +:+ " None " +:+
              Py.str_of (start (seen_clip c (Clip first None source))) +:+ " None") +:+
        line ("* FROM CLIP NAME: " +:+ input_str source)).
Proof.
  rewrite (proj2 (generate_edl_writes input_str [Clip first None source] file_path c w
                    ltac:(discriminate))).
  rewrite lookup_insert_eq. f_equal.
  unfold edl_text, seen_clip, shift_clip. cbn [fmap list_fmap edl_records].
  unfold edl_record. destruct (0 <? c); cbn [start end_ src];
    change (adjust_timecode None c) with (@None string); cbn [Py.str_of];
    unfold line; rewrite ?append_assoc; cbn; rewrite ?append_assoc; reflexivity.
Qed.

End MoreEdlFacts.

Lemma generate_edl_not_positive_witness :
  generate_edl (fun s : string => s)
    [Clip (Some "00:00:00:00") (Some "00:00:05:00") "Input1"] "out.edl" (-3)
    (World ∅ []) =
  generate_edl (fun s : string => s)
    [Clip (Some "00:00:00:00") (Some "00:00:05:00") "Input1"] "out.edl" 0
    (World ∅ []).
Proof.
  apply (generate_edl_not_positive (fun s : string => s)). lia.
Defined.

Lemma generate_edl_other_files_witness :
  files (generate_edl (fun s : string => s)
           [Clip (Some "00:00:00:00") (Some "00:00:05:00") "Input1"] "out.edl" 2
           (World (<["notes.txt" := "keep"]> ∅) [])).2 !! "notes.txt" =
  files (World (<["notes.txt" := "keep"]> ∅) []) !! "notes.txt".
Proof.
  apply (generate_edl_other_files (fun s : string => s)). discriminate.
Defined.

(** ** The polling loop and the session *)

Section MoreMonitorFacts.

Context {Input : Type} `{EqDecision Input}.
Variable input_str : Input -> string.
Variable emit_accepts_none : bool.

Local Abbreviation turn_of := (tick input_str emit_accepts_none).
Local Abbreviation loop := (monitor input_str emit_accepts_none).

Ltac tick_cases st smp :=
  destruct st as [lpi ltc cl tv]; destruct smp as [[e|v] d];
  unfold tick;
  cbn [switcher deck last_program_input last_timecode clips timecode];
  try destruct (decide (v = lpi)) as [Heq|Hne];
  try destruct lpi as [source|];
  try destruct ltc as [[|c r]|];
  try destruct d as [[|c' r']|];
  try destruct emit_accepts_none;
  cbn [after signals records last_program_input last_timecode clips timecode
       app Py.str_of].

Lemma monitor_signals_cons st smp later :
  (loop st (smp :: later)).1.2 =
  signals (turn_of st smp) ++ (loop (after (turn_of st smp)) later).1.2.
Proof.
  cbn [monitor]. destruct (loop (after (turn_of st smp)) later) as [[st' s] r].
  reflexivity.
Qed.

Lemma monitor_app a : forall st b,
  (loop st (a ++ b)).1.1 = (loop (loop st a).1.1 b).1.1.
Proof.
  induction a as [|smp a IH]; intros st b; [reflexivity|].
  cbn [app]. rewrite !(monitor_cons input_str emit_accepts_none). apply IH.
Qed.

(** A property of the state that every turn keeps is kept by the loop. *)
Lemma monitor_keeps (P : loop_state -> Prop) (Q : sample -> Prop) :
  (forall st smp, Q smp -> P st -> P (after (turn_of st smp))) ->
  forall samples st, Forall Q samples -> P st -> P (loop st samples).1.1.
Proof.
  intros Hstep. induction samples as [|smp samples IH]; intros st Hq Hst.
  - exact Hst.
  - rewrite (monitor_cons input_str emit_accepts_none).
    inversion Hq; subst. apply IH; [assumption|]. apply Hstep; assumption.
Qed.

Lemma Forall_always {A : Type} (l : list A) : Forall (fun _ => True) l.
Proof. induction l; constructor; auto. Qed.

Lemma tick_armed st smp : armed st -> armed (after (turn_of st smp)).
Proof.
  unfold armed. tick_cases st smp; cbn; intros Harmed src' Hsrc;
    try (eexists; reflexivity); eauto.
Qed.

Lemma monitor_armed samples : armed (loop initial samples).1.1.
Proof.
  apply (monitor_keeps armed (fun _ => True)).
  - intros st smp _. apply tick_armed.
  - apply Forall_always.
  - intros source Hs. discriminate.
Qed.

Lemma finish_armed (st : @loop_state Input) : armed st -> exists cl, finish st = Ok cl.
Proof.
  unfold armed, finish. intros Harmed.
  destruct (last_program_input st) as [source|]; [|eexists; reflexivity].
  destruct (Harmed source eq_refl) as [v ->].
  destruct (last_timecode st) as [[|c r]|]; eexists; reflexivity.
Qed.

Lemma run_unfold samples file_path compensation_frames w :
  run input_str emit_accepts_none samples file_path compensation_frames w =
  (cl ← finish (loop initial samples).1.1;
   match file_path, cl with
   | Some (String c r), _ :: _ =>
       mret (generate_edl input_str cl (String c r) compensation_frames
               (log_all (loop initial samples).2 w))
   | _, _ => mret (cl, log_all (loop initial samples).2 w)
   end).
Proof.
  unfold run. destruct (loop initial samples) as [[st s] r]. reflexivity.
Qed.

Lemma run_outcome samples file_path compensation_frames w :
  exists cl w',
    session_clips input_str emit_accepts_none samples = Ok cl /\
    run input_str emit_accepts_none samples file_path compensation_frames w =
      Ok (cl, w') /\
    (Py.truthy file_path = false \/ cl = [] -> files w' = files w) /\
    (forall path, file_path = Some path -> path <> "" -> cl <> [] ->
       files w' =
       <[path := edl_text input_str (seen_clip compensation_frames <$> cl)]> (files w)).
Proof.
  destruct (finish_armed _ (monitor_armed samples)) as [cl Hcl].
  rewrite run_unfold. unfold session_clips. rewrite Hcl. cbn [mbind result_bind].
  destruct file_path as [[|c r]|]; cbn [mret result_ret].
  - exists cl, (log_all (loop initial samples).2 w).
    repeat split; try reflexivity. intros path [= <-]. congruence.
  - destruct cl as [|c0 cl0].
    + exists [], (log_all (loop initial samples).2 w).
      repeat split; try reflexivity. congruence.
    + destruct (generate_edl_writes input_str (c0 :: cl0) (String c r)
                  compensation_frames (log_all (loop initial samples).2 w)
                  ltac:(discriminate)) as [Hsame Hfiles].
      destruct (generate_edl input_str (c0 :: cl0) (String c r) compensation_frames
                  (log_all (loop initial samples).2 w)) as [cl' w'].
      cbn [fst snd] in Hsame, Hfiles. subst cl'.
      exists (c0 :: cl0), w'. split; [reflexivity|]. split; [reflexivity|]. split.
      * intros [Hf|Hf]; discriminate.
      * intros path [= <-] _ _. exact Hfiles.
  - exists cl, (log_all (loop initial samples).2 w).
    repeat split; try reflexivity. intros path Hp. discriminate.
Qed.

(** X11.  Opening the destination being taken to succeed, whatever the
    samples, the session ends without exception: the
    variable [timecode], unbound until a turn gets past the switcher, is
    bound whenever the trailing clip needs it.  [run] then returns the
    clips of the session; it writes nothing when there is no destination or
    no clip, and otherwise the destination holds the EDL of those clips. *)
Theorem run_writes_session samples file_path compensation_frames w :
  exists cl w',
    session_clips input_str emit_accepts_none samples = Ok cl /\
    run input_str emit_accepts_none samples file_path compensation_frames w =
      Ok (cl, w') /\
    (Py.truthy file_path = false \/ cl = [] -> files w' = files w) /\
    (forall path, file_path = Some path -> path <> "" -> cl <> [] ->
       files w' =
       <[path := edl_text input_str (seen_clip compensation_frames <$> cl)]> (files w)).
Proof. exact (run_outcome samples file_path compensation_frames w). Qed.

Lemma tick_grows st smp :
  exists added,
    clips (after (turn_of st smp)) = clips st ++ added /\
    Forall (fun c => Py.truthy (start c) = true) added /\
    List.filter is_log_signal (signals (turn_of st smp)) =
      log_signal_of input_str <$> List.filter (announced emit_accepts_none) added.
Proof.
  tick_cases st smp;
    first [ exists []; rewrite app_nil_r; repeat split; constructor
          | eexists [_]; repeat split; repeat constructor ].
Qed.

Lemma monitor_grows samples : forall st,
  exists added,
    clips (loop st samples).1.1 = clips st ++ added /\
    Forall (fun c => Py.truthy (start c) = true) added /\
    List.filter is_log_signal (loop st samples).1.2 =
      log_signal_of input_str <$> List.filter (announced emit_accepts_none) added.
Proof.
  induction samples as [|smp samples IH]; intros st.
  - exists []. rewrite app_nil_r. repeat split; constructor.
  - rewrite (monitor_cons input_str emit_accepts_none), monitor_signals_cons.
    destruct (tick_grows st smp) as (a1 & Hc1 & Hs1 & Hl1).
    destruct (IH (after (turn_of st smp))) as (a2 & Hc2 & Hs2 & Hl2).
    exists (a1 ++ a2). split; [|split].
    + rewrite Hc2, Hc1, app_assoc. reflexivity.
    + apply Forall_app; split; assumption.
    + rewrite List.filter_app, Hl1, Hl2, List.filter_app, fmap_app. reflexivity.
Qed.

Lemma finish_grows (st : @loop_state Input) cl :
  finish st = Ok cl ->
  exists added,
    cl = clips st ++ added /\ Forall (fun c => Py.truthy (start c) = true) added.
Proof.
  unfold finish.
  destruct (last_program_input st) as [source|];
    [destruct (last_timecode st) as [[|c r]|]; [| destruct (timecode st) |] |];
    intros [= <-];
    first [ exists []; rewrite app_nil_r; split; constructor
          | eexists [_]; split; repeat constructor ].
Qed.

(** X12.  Clips are only ever appended: the clips of a session that went
    through the samples [before] and then [later] begin with the clips the
    loop held after [before], unchanged and in the same order. *)
Theorem session_clips_append_only before later cl :
  session_clips input_str emit_accepts_none (before ++ later) = Ok cl ->
  clips (loop initial before).1.1 `prefix_of` cl.
Proof.
  unfold session_clips. rewrite monitor_app. intros Hfin.
  destruct (finish_grows _ _ Hfin) as (a2 & -> & _).
  destruct (monitor_grows later (loop initial before).1.1) as (a1 & -> & _).
  exists (a1 ++ a2). rewrite app_assoc. reflexivity.
Qed.

(** X13.  Every clip of a session starts at a timecode: the start is a
    non-empty text, never [None]. *)
Theorem session_clips_start samples cl :
  session_clips input_str emit_accepts_none samples = Ok cl ->
  Forall (fun c => Py.truthy (start c) = true) cl.
Proof.
  unfold session_clips. intros Hfin.
  destruct (finish_grows _ _ Hfin) as (a2 & -> & H2).
  destruct (monitor_grows samples initial) as (a1 & -> & H1 & _).
  cbn [clips initial app]. apply Forall_app; split; assumption.
Qed.

(** X14.  The [update_log_signal]s of the loop are the clips the loop
    appended, one signal per clip and in the same order, with the source as
    text, the start and the end; if the signal library refuses [None], the
    clips without an end are the ones not announced. *)
Theorem monitor_log_signals samples :
  List.filter is_log_signal (loop initial samples).1.2 =
  log_signal_of input_str <$>
    List.filter (announced emit_accepts_none) (clips (loop initial samples).1.1).
Proof.
  destruct (monitor_grows samples initial) as (added & -> & _ & ->).
  reflexivity.
Qed.

Lemma chained_snoc (l : list (clip Input)) x :
  chained l ->
  (forall c, last l = Some c -> end_ c = start x /\ src c <> src x) ->
  chained (l ++ [x]).
Proof.
  intros Hl Hlast i c1 c2 H1 H2.
  destruct (decide (S i < length l)%nat) as [Hlt|Hge].
  - rewrite lookup_app_l in H1 by lia. rewrite lookup_app_l in H2 by lia.
    exact (Hl i c1 c2 H1 H2).
  - destruct (decide (S i = length l)) as [Heq|Hne].
    + rewrite lookup_app_l in H1 by lia.
      rewrite lookup_app_r in H2 by lia.
      replace (S i - length l)%nat with 0%nat in H2 by lia.
      cbn in H2. injection H2 as <-.
      apply Hlast. rewrite last_lookup. rewrite <- Heq. exact H1.
    + apply lookup_lt_Some in H2. rewrite length_app in H2. cbn in H2. lia.
Qed.

Lemma chained_nil : chained ([] : list (clip Input)).
Proof. intros i c1 c2 H1. discriminate. Qed.

Lemma tick_well_tracked st smp :
  answered smp = true -> well_tracked st -> well_tracked (after (turn_of st smp)).
Proof.
  unfold well_tracked.
  destruct st as [lpi ltc cl tv]. destruct smp as [[e|[i|]] [[|c' r']|]];
    try discriminate.
  intros _ (Hch & Hlast & Hnone & Hsome).
  cbn [clips last_program_input last_timecode] in *.
  unfold tick. cbn [switcher deck last_program_input last_timecode clips timecode].
  destruct (decide (Some i = lpi)) as [Heq|Hne].
  - cbn [after clips last_program_input last_timecode]. auto.
  - destruct lpi as [source|].
    + specialize (Hsome source eq_refl).
      destruct ltc as [[|c r]|]; try discriminate.
      cbn [after clips last_program_input last_timecode].
      split; [|split; [|split]].
      * apply chained_snoc; [exact Hch|]. cbn [start src].
        intros c0 Hc0. destruct (Hlast c0 Hc0) as [He Hs]. split; congruence.
      * intros c0. rewrite last_snoc. intros [= <-]. cbn [end_ src].
        split; congruence.
      * discriminate.
      * reflexivity.
    + rewrite (Hnone eq_refl). cbn [after clips last_program_input last_timecode].
      split; [apply chained_nil|]. split; [discriminate|].
      split; [discriminate | reflexivity].
Qed.

Lemma tick_answered_taken st smp :
  answered smp = true ->
  exists i, last_program_input (after (turn_of st smp)) = Some i.
Proof.
  destruct smp as [[e|[i|]] [[|c' r']|]]; try discriminate. intros _.
  destruct st as [lpi ltc cl tv]. unfold tick.
  cbn [switcher deck last_program_input last_timecode clips timecode].
  destruct (decide (Some i = lpi)) as [Heq|Hne].
  - exists i. cbn [after last_program_input]. congruence.
  - destruct lpi as [source|]; [destruct ltc as [[|c r]|]|];
      exists i; reflexivity.
Qed.

Lemma forallb_Forall {A : Type} (f : A -> bool) l :
  forallb f l = true -> Forall (fun x => f x = true) l.
Proof.
  induction l as [|x l IH]; cbn; [constructor|].
  intros [Hx Hl]%andb_prop. constructor; auto.
Qed.

(** X15.  When both devices answer in every turn (an input, and a
    non-empty timecode), the clips of the session leave no gap and repeat
    no source: each clip ends at the timecode at which the next one starts,
    and the next one has another source; and a session of at least one
    such turn has at least one clip. *)
Theorem session_clips_chained samples :
  forallb answered samples = true ->
  exists cl,
    session_clips input_str emit_accepts_none samples = Ok cl /\
    chained cl /\ (samples <> [] -> cl <> []).
Proof.
  intros Hall%forallb_Forall.
  assert (Hwt : well_tracked (loop initial samples).1.1).
  { apply (monitor_keeps well_tracked (fun smp => answered smp = true)).
    - apply tick_well_tracked.
    - exact Hall.
    - split; [apply chained_nil|]. split; [discriminate|].
      split; [reflexivity | discriminate]. }
  assert (Htaken : samples <> [] ->
            exists i, last_program_input (loop initial samples).1.1 = Some i).
  { destruct samples as [|smp samples]; [congruence|]. intros _.
    inversion Hall as [|? ? Hsmp Hrest]; subst.
    rewrite (monitor_cons input_str emit_accepts_none).
    apply (monitor_keeps (fun st => exists i, last_program_input st = Some i)
             (fun smp => answered smp = true)); [|exact Hrest|].
    - intros st s Hs _. apply tick_answered_taken, Hs.
    - apply tick_answered_taken, Hsmp. }
  pose proof (monitor_armed samples) as Harmed.
  unfold session_clips.
  destruct ((loop initial samples).1.1) as [lpi ltc cl tv].
  destruct Hwt as (Hch & Hlast & Hnone & Hsome).
  cbn [clips last_program_input last_timecode] in *.
  unfold finish. cbn [last_program_input last_timecode clips timecode].
  destruct lpi as [source|].
  - specialize (Hsome source eq_refl).
    destruct ltc as [[|c r]|]; try discriminate.
    destruct (Harmed source eq_refl) as [v Hv]. cbn in Hv. subst tv.
    eexists. split; [reflexivity|]. split.
    + apply chained_snoc; [exact Hch|]. cbn [start src].
      intros c0 Hc0. destruct (Hlast c0 Hc0) as [He Hs]. split; congruence.
    + intros _. destruct cl; discriminate.
  - eexists. split; [reflexivity|]. split; [exact Hch|].
    intros Hne. destruct (Htaken Hne) as [i Hi]. discriminate.
Qed.

End MoreMonitorFacts.

Lemma run_writes_session_witness :
  exists cl w',
    session_clips cam_str true [seen A "00:00:00:00"; seen B "00:00:02:00"] = Ok cl /\
    run cam_str true [seen A "00:00:00:00"; seen B "00:00:02:00"]
      (Some "out.edl") 0 (World ∅ []) = Ok (cl, w') /\
    files w' = <["out.edl" := edl_text cam_str (seen_clip 0 <$> cl)]> ∅.
Proof.
  destruct (run_writes_session cam_str true [seen A "00:00:00:00"; seen B "00:00:02:00"]
              (Some "out.edl") 0 (World ∅ [])) as (cl & w' & Hs & Hr & _ & Hfile).
  exists cl, w'. split; [exact Hs|]. split; [exact Hr|].
  apply (Hfile "out.edl"); [reflexivity | discriminate |].
  vm_compute in Hs. injection Hs as <-. discriminate.
Defined.

Lemma session_clips_append_only_witness :
  clips (monitor cam_str true initial
           [seen A "00:00:00:00"; seen B "00:00:02:00"]).1.1
  `prefix_of`
  [Clip (Some "00:00:00:00") (Some "00:00:02:00") A;
   Clip (Some "00:00:02:00") (Some "00:00:04:00") B;
   Clip (Some "00:00:04:00") (Some "00:00:04:00") C].
Proof.
  apply (session_clips_append_only cam_str true
           [seen A "00:00:00:00"; seen B "00:00:02:00"] [seen C "00:00:04:00"]).
  reflexivity.
Defined.

Lemma session_clips_start_witness :
  Forall (fun c : clip cam => Py.truthy (start c) = true)
    [Clip (Some "00:00:00:00") None A].
Proof.
  apply (session_clips_start cam_str true
           [seen A "00:00:00:00"; Sample (ReadGives (Some B)) None]).
  reflexivity.
Defined.

Lemma session_clips_chained_witness :
  exists cl,
    session_clips cam_str false
      [seen A "00:00:00:00"; seen B "00:00:02:00"; seen A "00:00:03:00"] = Ok cl /\
    chained cl /\
    ([seen A "00:00:00:00"; seen B "00:00:02:00"; seen A "00:00:03:00"] <> [] ->
     cl <> []).
Proof.
  apply (session_clips_chained cam_str false
           [seen A "00:00:00:00"; seen B "00:00:02:00"; seen A "00:00:03:00"]).
  reflexivity.
Defined.

(** ** Connecting, and the thread from start to end *)

Section ThreadFacts.

Context {Input : Type} `{EqDecision Input}.
Variable input_str : Input -> string.
Variable emit_accepts_none : bool.

(** X16.  [connect_to_hyperdeck] gives the socket exactly when neither
    [connect] nor the first [recv] raises and the greeting received is
    well-formed UTF-8; it gives [None] otherwise, and raises nothing.  A
    greeting of no bytes at all, which is what a peer that has closed the
    stream gives, decodes and so counts as connected. *)
Theorem connect_to_hyperdeck_socket d :
  (connect_to_hyperdeck d = true <->
   connect_raises d = false /\
   exists data, greeting d = Chunk data /\ utf8_check None data = true) /\
  (connect_raises d = false -> greeting d = Chunk "" -> connect_to_hyperdeck d = true).
Proof.
  unfold connect_to_hyperdeck, connect_to_hyperdeck_try, decode_utf8.
  destruct d as [raises g]. cbn [connect_raises greeting].
  split.
  - split.
    + destruct raises; [discriminate|]. destruct g as [data|]; [|discriminate].
      destruct (utf8_check None data) eqn:Hu; [|discriminate].
      intros _. split; [reflexivity|]. exists data. split; [reflexivity | exact Hu].
    + intros [-> (data & -> & ->)]. reflexivity.
  - intros -> ->. reflexivity.
Qed.

(** X17.  Opening the destination being taken to succeed, the thread
    raises nothing.  When both connections succeed, it
    ends with the clips of the session, having connected both devices and
    then disconnected the switcher and closed the deck, in that order.
    When a connection fails, it sets the stop event, emits no signal, keeps
    no clip and changes no file; and it does not disconnect the switcher,
    not even when the switcher had been connected and the deck failed. *)
Theorem thread_run_ends atem_connect_raises d hyperdeck_ip samples
    file_path compensation_frames w :
  let t := thread_run input_str emit_accepts_none atem_connect_raises d
             hyperdeck_ip samples file_path compensation_frames w in
  raised t = None /\
  (atem_connect_raises = None -> connect_to_hyperdeck d = true ->
   calls t = [atem_connect; hyperdeck_connect; atem_disconnect; hyperdeck_close] /\
   session_clips input_str emit_accepts_none samples = Ok (clips_end t) /\
   emitted t = (monitor input_str emit_accepts_none initial samples).1.2) /\
  (atem_connect_raises <> None \/ connect_to_hyperdeck d = false ->
   In stop_event_set (calls t) /\ ~ In atem_disconnect (calls t) /\
   ~ In hyperdeck_close (calls t) /\
   emitted t = [] /\ clips_end t = [] /\ files (world_end t) = files w).
Proof.
  cbn zeta. unfold thread_run.
  destruct atem_connect_raises as [e|].
  - cbn [raised calls emitted clips_end world_end log_all files].
    split; [reflexivity|]. split; [discriminate|]. intros _.
    repeat split; cbn; try tauto; intros [?|[?|[]]]; discriminate.
  - destruct (connect_to_hyperdeck d).
    + destruct (run_outcome input_str emit_accepts_none samples file_path
                  compensation_frames w) as (cl & w' & Hs & Hr & _).
      rewrite Hr.
      destruct (monitor input_str emit_accepts_none initial samples)
        as [[st sigs] recs] eqn:Hm.
      cbn [raised calls emitted clips_end world_end fst snd].
      split; [reflexivity|]. split.
      * intros _ _. repeat split. exact Hs.
      * intros [Hc|Hc]; [congruence | discriminate].
    + cbn [raised calls emitted clips_end world_end log_all files].
      split; [reflexivity|]. split; [discriminate|]. intros _.
      repeat split; cbn; try tauto; intros [?|[?|[?|[]]]]; discriminate.
Qed.

End ThreadFacts.

Lemma connect_to_hyperdeck_socket_witness :
  connect_to_hyperdeck (Dial false (Chunk "")) = true.
Proof.
  apply (proj2 (connect_to_hyperdeck_socket (Dial false (Chunk ""))));
    reflexivity.
Defined.

Lemma thread_run_ends_witness :
  ~ In atem_disconnect
      (calls (thread_run cam_str true None (Dial false RecvError) "10.0.0.2"
                [seen A "00:00:00:00"] (Some "out.edl") 2 (World ∅ []))).
Proof.
  apply (thread_run_ends cam_str true None (Dial false RecvError) "10.0.0.2"
           [seen A "00:00:00:00"] (Some "out.edl") 2 (World ∅ [])).
  right. reflexivity.
Defined.

(** ** The window *)

Section WindowFacts.

Lemma lower_input_no_dunder name :
  Py.startswith (lower name) "input" = true -> Py.startswith name "__" = false.
Proof.
  unfold Py.startswith. destruct name as [|c r]; [discriminate|].
  cbn [lower String.prefix].
  destruct (ascii_dec "i" (lower_char c)) as [Hi|]; [|discriminate]. intros _.
  destruct (ascii_dec "_" c) as [<-|]; [|reflexivity].
  vm_compute in Hi. discriminate.
Qed.

(** X18.  The list of inputs offered holds exactly the names that start
    with "input" once put in lower case, in the order [dir] gives them;
    the test on a leading double underscore excludes nothing beyond
    that. *)
Theorem video_inputs_filter names :
  video_inputs names =
  List.filter (fun name => Py.startswith (lower name) "input") names.
Proof.
  induction names as [|name names IH]; [reflexivity|].
  cbn [video_inputs List.filter]. rewrite IH.
  destruct (Py.startswith (lower name) "input") eqn:Hin.
  - rewrite (lower_input_no_dunder name Hin). reflexivity.
  - destruct (negb (Py.startswith name "__")); reflexivity.
Qed.

Lemma int_raises_ValueError s e : Py.int s = Raise e -> e = ValueError.
Proof.
  unfold Py.int.
  repeat match goal with |- context [match ?x with _ => _ end] => destruct x end;
    congruence.
Qed.

Lemma handle_coherent g ev :
  coherent g ->
  coherent (handle g ev).1 /\
  ((handle g ev).2 = None \/ (handle g ev).2 = Some ValueError).
Proof.
  unfold coherent. intros (Hon & Hoff & Hbox).
  destruct g as [mon stop thread button border text enabled box path].
  cbn [is_monitoring stop_event monitor_thread start_button timecode_frame_border
       frames_input frames_input_enabled compensation_checkbox edl_file_path] in *.
  destruct ev as [| |typed|chosen|]; cbn [handle].
  - unfold toggle_monitoring.
    cbn [is_monitoring stop_event monitor_thread start_button timecode_frame_border
         frames_input frames_input_enabled compensation_checkbox edl_file_path].
    destruct mon.
    + destruct (Hon eq_refl) as (_ & _ & args & ->). cbn.
      repeat split; auto; discriminate.
    + destruct (Hoff eq_refl) as (Hb & Hc).
      destruct box.
      * destruct (Py.int text) as [n|e] eqn:Hn; cbn.
        -- repeat split; eauto; discriminate.
        -- rewrite (int_raises_ValueError _ _ Hn). repeat split; auto; discriminate.
      * cbn. repeat split; eauto; discriminate.
  - unfold toggle_frames_input. cbn. repeat split; auto; tauto.
  - destruct enabled; cbn; repeat split; auto; tauto.
  - unfold choose_save_location. destruct chosen; cbn; repeat split; auto; tauto.
  - cbn. repeat split; auto; tauto.
Qed.

Lemma play_cons g ev later :
  play g (ev :: later) =
  ((play (handle g ev).1 later).1,
   match (handle g ev).2 with
   | Some x => x :: (play (handle g ev).1 later).2
   | None => (play (handle g ev).1 later).2
   end).
Proof.
  cbn [play]. destruct (handle g ev) as [g' e]. cbn [fst snd].
  destruct (play g' later) as [g'' es]. reflexivity.
Qed.

Lemma play_coherent events : forall g,
  coherent g ->
  coherent (play g events).1 /\ Forall (fun e => e = ValueError) (play g events).2.
Proof.
  induction events as [|ev events IH]; intros g Hg.
  - split; [exact Hg | constructor].
  - rewrite play_cons. cbn [fst snd].
    destruct (handle_coherent g ev Hg) as [Hg' Hraise].
    destruct (IH _ Hg') as [Hend Hall]. split; [exact Hend|].
    destruct Hraise as [-> | ->]; [exact Hall | constructor; [reflexivity | exact Hall]].
Qed.

Lemma new_window_coherent : coherent new_window.
Proof.
  unfold coherent, new_window. cbn. repeat split; auto; discriminate.
Qed.

(** X19.  Whatever is clicked, typed and chosen from the moment the window
    opens, the handlers raise nothing but the [ValueError] of a frames
    field that holds no integer; the button reads Stop and the border is
    red exactly while monitoring; and while monitoring there is a thread,
    so that stopping or closing the window never calls [wait] on
    [None]. *)
Theorem window_stays_coherent events :
  coherent (play new_window events).1 /\
  Forall (fun e => e = ValueError) (play new_window events).2 /\
  (closeEvent (play new_window events).1).2 = None.
Proof.
  destruct (play_coherent events new_window new_window_coherent) as [Hc Hall].
  split; [exact Hc|]. split; [exact Hall|].
  unfold closeEvent. destruct Hc as (Hon & _ & _).
  destruct (is_monitoring (play new_window events).1); [|reflexivity].
  destruct (Hon eq_refl) as (_ & _ & args & Hargs).
  cbn [monitor_thread]. rewrite Hargs. reflexivity.
Qed.

End WindowFacts.
